(** * Product Record Service: bulk CSV ingestion, listing and search

    A shallow embedding of [controllers/product.controller.js]
    ([uploadProducts], [getAllProducts], [filterProducts]) and of the
    schema in [models/product.model.js], with the properties the
    specification states about them.

    Conventions of the embedding.
    - A JavaScript string is the Rocq [string] of its UTF-8 bytes;
      [undefined] is [None] of an [option].
    - A CSV row (the object csv-parser emits) and a MongoDB document are
      finite maps from field names to values.
    - [parseInt] yields [NaN] or an integer: its results are [option Z].
      [parseFloat] yields [NaN], an infinity or a finite number: a finite
      number is carried as the exact rational its decimal literal denotes.
      Integers are unbounded and [-0] is [0]: the rounding and the range
      of binary64, and the 64-bit range of the store's [skip] and
      [limit], are not part of the model.
    - Arrays filled with [push] are lists extended at the right end.
    - A query parameter is a string or absent.
    - The built-ins ([trim], [parseInt], [parseFloat]) follow ECMAScript;
      the collection behind the mongoose model is modelled in [Mongo],
      where the assumptions on mongoose and MongoDB are stated. *)

From Stdlib Require Import ZArith QArith Ascii String List Sorted Lia Bool.
From stdpp Require Import base option list strings pretty gmap fin_maps.

Local Open Scope string_scope.
Local Open Scope Z_scope.

(** ** JavaScript strings *)

Module JsString.

Definition code (a : ascii) : N := N_of_ascii a.

(** ASCII members of WhiteSpace and LineTerminator:
    TAB, LF, VT, FF, CR, SP. *)
Definition is_ascii_space (a : ascii) : bool :=
  let n := code a in
  ((9 <=? n) && (n <=? 13) || (n =? 32))%N.

(** The other members, by their UTF-8 encoding: U+00A0; U+1680;
    U+2000..U+200A, U+2028, U+2029, U+202F; U+205F; U+3000; U+FEFF. *)
Definition is_space2 (a b : ascii) : bool :=
  ((code a =? 194) && (code b =? 160))%N.

Definition is_space3 (a b c : ascii) : bool :=
  let x := code a in let y := code b in let z := code c in
  ((x =? 225) && (y =? 154) && (z =? 128)
   || (x =? 226) && (y =? 128)
      && ((128 <=? z) && (z <=? 138) || (z =? 168) || (z =? 169) || (z =? 175))
   || (x =? 226) && (y =? 129) && (z =? 159)
   || (x =? 227) && (y =? 128) && (z =? 128)
   || (x =? 239) && (y =? 187) && (z =? 191))%N.

(** One white-space character removed from the front, if there is one. *)
Definition strip_space (s : string) : option string :=
  match s with
  | String a r =>
      if is_ascii_space a then Some r else
      match r with
      | String b r2 =>
          if is_space2 a b then Some r2 else
          match r2 with
          | String c r3 => if is_space3 a b c then Some r3 else None
          | EmptyString => None
          end
      | EmptyString => None
      end
  | EmptyString => None
  end.

Fixpoint trimStart_fuel (fuel : nat) (s : string) : string :=
  match fuel with
  | O => s
  | S fuel' =>
      match strip_space s with
      | Some r => trimStart_fuel fuel' r
      | None => s
      end
  end.

(** [String.prototype.trimStart]. *)
Definition trimStart (s : string) : string :=
  trimStart_fuel (String.length s) s.

Definition all_space (s : string) : bool :=
  if string_dec (trimStart s) "" then true else false.

(** [String.prototype.trimEnd]. *)
Fixpoint trimEnd (s : string) : string :=
  if all_space s then ""
  else match s with
       | String a r => String a (trimEnd r)
       | EmptyString => ""
       end.

(** [String.prototype.trim], which mongoose applies to a path declared
    with [trim: true]. *)
Definition trim (s : string) : string := trimEnd (trimStart s).

(** ASCII lower-casing, the case folding of the [i] option. *)
Definition lower (a : ascii) : ascii :=
  let n := code a in
  if ((65 <=? n) && (n <=? 90))%N then ascii_of_N (n + 32) else a.

Definition eqb_ci (a b : ascii) : bool := Ascii.eqb (lower a) (lower b).

(** Truthiness of a value that is a string or [undefined]. *)
Definition truthy (v : option string) : bool :=
  match v with
  | Some s => if string_dec s "" then false else true
  | None => false
  end.

End JsString.

(** ** JavaScript numbers *)

Module JsNumber.

Inductive t : Type :=
| NaN
| PosInf
| NegInf
| Fin (q : Q).

Definition isNaN (x : t) : bool :=
  match x with NaN => true | _ => false end.

(** [x < y]; any comparison with [NaN] is [false]. *)
Definition ltb (x y : t) : bool :=
  match x, y with
  | NaN, _ | _, NaN => false
  | PosInf, _ => false
  | _, PosInf => true
  | _, NegInf => false
  | NegInf, _ => true
  | Fin a, Fin b => negb (Qle_bool b a)
  end.

(** [x > y]. *)
Definition gtb (x y : t) : bool := ltb y x.

(** [x <= y]. *)
Definition leb (x y : t) : bool :=
  match x, y with
  | NaN, _ | _, NaN => false
  | NegInf, _ => true
  | _, PosInf => true
  | PosInf, _ => false
  | _, NegInf => false
  | Fin a, Fin b => Qle_bool a b
  end.

(** An integer-valued number, as [parseInt] returns it: [None] is
    [NaN]. *)
Definition isNaNInt (x : option Z) : bool :=
  match x with None => true | Some _ => false end.

Definition ltbInt (x : option Z) (z : Z) : bool :=
  match x with Some v => v <? z | None => false end.

Definition of_int (x : option Z) : t :=
  match x with Some z => Fin (inject_Z z) | None => NaN end.

End JsNumber.

(** ** [parseInt(_, 10)] and [parseFloat] *)

Module JsParse.
Import JsString.

Definition digit (a : ascii) : option Z :=
  let n := code a in
  if ((48 <=? n) && (n <=? 57))%N then Some (Z.of_N n - 48) else None.

(** The longest run of decimal digits at the front of [s]: the number
    read so far, how many digits were read, and what follows. *)
Fixpoint digits (acc : Z) (count : nat) (s : string) : Z * nat * string :=
  match s with
  | String a r =>
      match digit a with
      | Some d => digits (10 * acc + d) (S count) r
      | None => (acc, count, s)
      end
  | EmptyString => (acc, count, s)
  end.

(** An optional sign: [true] for [-]. *)
Definition sign (s : string) : bool * string :=
  match s with
  | String "-" r => (true, r)
  | String "+" r => (false, r)
  | _ => (false, s)
  end.

Definition signed (neg : bool) (z : Z) : Z := if neg then - z else z.

(** [parseInt(s, 10)]: leading white space, a sign, then the longest
    prefix of decimal digits; [NaN] ([None]) when there is no digit. *)
Definition parseInt (s : string) : option Z :=
  let '(neg, r) := sign (trimStart s) in
  let '(z, count, _) := digits 0 0 r in
  match count with
  | O => None
  | S _ => Some (signed neg z)
  end.

(** ExponentPart, taken only when complete ([e] or [E], a sign, at
    least one digit); otherwise the exponent is 0. *)
Definition exponent (s : string) : Z :=
  match s with
  | String a r =>
      if (Ascii.eqb a "e" || Ascii.eqb a "E")%bool then
        let '(neg, r') := sign r in
        let '(z, count, _) := digits 0 0 r' in
        match count with
        | O => 0
        | S _ => signed neg z
        end
      else 0
  | EmptyString => 0
  end.

(** The value [m * 10^e]. *)
Definition scale (m e : Z) : Q :=
  match e with
  | Zneg p => Qmake m (Pos.pow 10 p)
  | _ => inject_Z (m * 10 ^ e)
  end.

Definition starts_with (p s : string) : bool :=
  if string_dec (String.substring 0 (String.length p) s) p then true else false.

(** [parseFloat(s)]: leading white space, then the longest prefix that
    is a StrDecimalLiteral: a sign, then [Infinity] or decimal digits
    with an optional fraction and exponent. *)
Definition parseFloat (s : string) : JsNumber.t :=
  let '(neg, r) := sign (trimStart s) in
  if starts_with "Infinity" r then
    if neg then JsNumber.NegInf else JsNumber.PosInf
  else
    let '(ip, ni, r1) := digits 0 0 r in
    let '(m, nf, r2) :=
      match r1 with
      | String "." r' =>
          let '(m', nf', r'') := digits ip 0 r' in
          match ni, nf' with
          | O, O => (ip, O, r1)
          | _, _ => (m', nf', r'')
          end
      | _ => (ip, O, r1)
      end in
    match ni, nf with
    | O, O => JsNumber.NaN
    | _, _ =>
        JsNumber.Fin (scale (signed neg m) (exponent r2 - Z.of_nat nf))
    end.

End JsParse.


Local Close Scope Z_scope.
Local Open Scope list_scope.

(** ** Data model *)

(** A Raw Row: the object csv-parser emits for one data line, header
    name to cell text. A cell missing at the end of a short line has no
    key. *)
Abbreviation RawRow := (gmap string string).

(** A value of a stored document. *)
Inductive JsValue : Type :=
| VStr (s : string)
| VNum (n : JsNumber.t).

(** A document of the [Product] collection. *)
Abbreviation Doc := (gmap string JsValue).

(** The object [{...row, mrp: parsedMrp, price: parsedPrice,
    quantity: parsedQuantity}]: the cells of the row, with the three
    numeric keys overridden by the parsed numbers. *)
Record ValidProduct : Type := {
  vp_row : RawRow;
  vp_mrp : JsNumber.t;
  vp_price : JsNumber.t;
  vp_quantity : option Z
}.

(** [product.sku]. *)
Definition product_sku (p : ValidProduct) : option string := vp_row p !! "sku".

(** [product[k]] for any key [k]. *)
Definition product_field (p : ValidProduct) (k : string) : option JsValue :=
  if String.eqb k "mrp" then Some (VNum (vp_mrp p))
  else if String.eqb k "price" then Some (VNum (vp_price p))
  else if String.eqb k "quantity" then Some (VNum (JsNumber.of_int (vp_quantity p)))
  else VStr <$> vp_row p !! k.

(** The fixed taxonomy of rejection reasons. *)
Inductive Reason : Type :=
| MissingRequired
| InvalidNumber
| PriceAboveMrp
| NegativeQuantity.

Definition reason_text (why : Reason) : string :=
  match why with
  | MissingRequired => "Missing required fields."
  | InvalidNumber => "Invalid number format for MRP, Price, or Quantity."
  | PriceAboveMrp => "Price cannot be greater than MRP."
  | NegativeQuantity => "Quantity can't be negative."
  end.

(** An element of [failedValidation]: [{row, data, reason}]. *)
Record Rejection : Type := {
  row : nat;
  data : RawRow;
  reason : Reason
}.

(** ** The row validator

    The checks of the ['data'] handler of [uploadProducts], in the order
    of the source; each [return] of the handler is a [Rejected]. *)

Inductive Outcome : Type :=
| Accepted (product : ValidProduct)
| Rejected (why : Reason).

(** [parseFloat(v)] and [parseInt(v, 10)] of a string or [undefined];
    [undefined] is read as the text "undefined", which is not a number. *)
Definition parseFloatV (v : option string) : JsNumber.t :=
  match v with
  | Some s => JsParse.parseFloat s
  | None => JsNumber.NaN
  end.

Definition parseIntV (v : option string) : option Z :=
  match v with
  | Some s => JsParse.parseInt s
  | None => None
  end.

(** [parseInt(quantity || 0, 10)]. *)
Definition parseQuantity (quantity : option string) : option Z :=
  if JsString.truthy quantity then parseIntV quantity else JsParse.parseInt "0".

Definition validateRow (r : RawRow) : Outcome :=
  let sku := r !! "sku" in
  let name := r !! "name" in
  let brand := r !! "brand" in
  let mrp := r !! "mrp" in
  let price := r !! "price" in
  let quantity := r !! "quantity" in
  if negb (JsString.truthy sku) || negb (JsString.truthy name)
     || negb (JsString.truthy brand) || negb (JsString.truthy mrp)
     || negb (JsString.truthy price)
  then Rejected MissingRequired
  else
    let parsedMrp := parseFloatV mrp in
    let parsedPrice := parseFloatV price in
    let parsedQuantity := parseQuantity quantity in
    if JsNumber.isNaN parsedMrp || JsNumber.isNaN parsedPrice
       || JsNumber.isNaNInt parsedQuantity
    then Rejected InvalidNumber
    else if JsNumber.gtb parsedPrice parsedMrp
    then Rejected PriceAboveMrp
    else if JsNumber.ltbInt parsedQuantity 0
    then Rejected NegativeQuantity
    else Accepted {| vp_row := r; vp_mrp := parsedMrp;
                     vp_price := parsedPrice;
                     vp_quantity := parsedQuantity |}.

(** ** The ingestion pipeline *)

(** The three variables the handlers of [uploadProducts] close over. *)
Record UploadState : Type := {
  validProducts : list ValidProduct;
  failedValidation : list Rejection;
  rowCount : nat
}.

Definition initialState : UploadState :=
  {| validProducts := []; failedValidation := []; rowCount := 0 |}.

Definition push {A : Type} (l : list A) (x : A) : list A := l ++ [x].

(** The ['data'] handler: count the row, then record its outcome. *)
Definition onData (st : UploadState) (r : RawRow) : UploadState :=
  let n := S (rowCount st) in
  match validateRow r with
  | Rejected why =>
      {| validProducts := validProducts st;
         failedValidation :=
           push (failedValidation st) {| row := n; data := r; reason := why |};
         rowCount := n |}
  | Accepted product =>
      {| validProducts := push (validProducts st) product;
         failedValidation := failedValidation st;
         rowCount := n |}
  end.

(** What the csv-parser stream delivers: ['data'] events, then ['end']
    or ['error']. *)
Inductive StreamEnd : Type :=
| End
| Error (msg : string).

Record CsvStream : Type := {
  rows : list RawRow;
  ending : StreamEnd
}.

(** One element of [operations]:
    [{updateOne: {filter: {sku}, update: {$set}, upsert: true}}]. *)
Record WriteOp : Type := UpdateOne {
  filter_sku : option string;
  update_set : ValidProduct
}.

(** The filter object built by [filterProducts]; [{}] is [noFilter]. *)
Record PriceRange : Type := {
  gte : option JsNumber.t;
  lte : option JsNumber.t
}.

Record Filter : Type := {
  filter_name : option string;
  filter_brand : option string;
  filter_color : option string;
  filter_price : option PriceRange
}.

Definition noFilter : Filter :=
  {| filter_name := None; filter_brand := None; filter_color := None;
     filter_price := None |}.

(** A call that resolves or throws. *)
Inductive Result (A : Type) : Type :=
| Done (a : A)
| Thrown (msg : string).
Arguments Done {A} a.
Arguments Thrown {A} msg.

(** The part of the mongoose model [Product] the controllers use.
    [bulkWrite] returns the store after the call and the error it threw,
    if any. [find f skip limit] is [Product.find(f).skip(..).limit(..)];
    it is [None] where a model of the store does not cover the query. *)
Class CatalogStore (DB : Type) : Type := {
  bulkWrite : list WriteOp → DB → DB * option string;
  find : Filter → option Z → option Z → DB → option (Result (list Doc));
  countDocuments : DB → Result nat
}.

(** ** HTTP responses *)

Inductive Body : Type :=
| Message (message : string)
| Failure (message error : string)
| Summary (message : string) (stored failed : nat)
          (failedDetails : list Rejection)
| Page (totalProducts : nat) (totalPages currentPage : Z)
       (products : list Doc)
| Products (products : list Doc).

Record Response : Type := {
  status : nat;
  body : Body
}.

Definition json (code : nat) (b : Body) : Response :=
  {| status := code; body := b |}.

(** ** The controllers *)

Section Controllers.
Context {DB : Type} `{CatalogStore DB}.

Definition operations_of (valid : list ValidProduct) : list WriteOp :=
  (λ product, {| filter_sku := product_sku product;
                 update_set := product |}) <$> valid.

(** The ['end'] handler. The second component lists the batches sent
    to [Product.bulkWrite], in order. *)
Definition onEnd (st : UploadState) (db : DB)
  : Response * list (list WriteOp) * DB :=
  let summary :=
    json 201 (Summary "CSV data processed successfully."
                (length (validProducts st)) (length (failedValidation st))
                (failedValidation st)) in
  if (0 <? length (validProducts st))%nat then
    let operations := operations_of (validProducts st) in
    match bulkWrite operations db with
    | (db', None) => (summary, [operations], db')
    | (db', Some err) =>
        (json 500 (Failure "Error storing Product Details in the database." err),
         [operations], db')
    end
  else (summary, [], db).

(** [uploadProducts]; [file] is [req.file] decoded by csv-parser. *)
Definition uploadProducts (file : option CsvStream) (db : DB)
  : Response * list (list WriteOp) * DB :=
  match file with
  | None =>
      (json 400 (Message "No file found. Please upload a CSV file."), [], db)
  | Some stream =>
      let st := fold_left onData (rows stream) initialState in
      match ending stream with
      | End => onEnd st db
      | Error msg =>
          (json 500 (Failure "Error in parsing CSV file." msg), [], db)
      end
  end.

(** [parseInt(v, 10) || d]: [NaN] and [0] are falsy. *)
Definition parseIntOr (v : option string) (d : Z) : Z :=
  match parseIntV v with
  | Some z => if (z =? 0)%Z then d else z
  | None => d
  end.

(** [Math.ceil(total / limit)] for integers, [limit] not 0. *)
Definition ceilDiv (total limit : Z) : Z := (- ((- total) / limit))%Z.

Definition fetchError (msg : string) : Response :=
  json 500 (Failure "Error fetching products." msg).

(** [getAllProducts]; the arguments are [req.query.page] and
    [req.query.limit]. *)
Definition getAllProducts (page_q limit_q : option string) (db : DB)
  : option Response :=
  let page := parseIntOr page_q 1 in
  let limit := parseIntOr limit_q 10 in
  let skip := ((page - 1) * limit)%Z in
  match find noFilter (Some skip) (Some limit) db with
  | None => None
  | Some (Thrown msg) => Some (fetchError msg)
  | Some (Done products) =>
      match countDocuments db with
      | Thrown msg => Some (fetchError msg)
      | Done totalProducts =>
          Some (json 200 (Page totalProducts
                            (ceilDiv (Z.of_nat totalProducts) limit)
                            page products))
      end
  end.

(** [req.query] of the search route, each parameter given at most once. *)
Record SearchQuery : Type := {
  q_name : option string;
  q_brand : option string;
  q_color : option string;
  q_minPrice : option string;
  q_maxPrice : option string
}.

Definition regexOf (v : option string) : option string :=
  if JsString.truthy v then v else None.

Definition boundOf (v : option string) : option JsNumber.t :=
  if JsString.truthy v then Some (parseFloatV v) else None.

Definition buildFilter (q : SearchQuery) : Filter :=
  {| filter_name := regexOf (q_name q);
     filter_brand := regexOf (q_brand q);
     filter_color := regexOf (q_color q);
     filter_price :=
       if JsString.truthy (q_minPrice q) || JsString.truthy (q_maxPrice q)
       then Some {| gte := boundOf (q_minPrice q);
                    lte := boundOf (q_maxPrice q) |}
       else None |}.

(** [filterProducts]. *)
Definition filterProducts (q : SearchQuery) (db : DB) : option Response :=
  match find (buildFilter q) None None db with
  | None => None
  | Some (Thrown msg) => Some (fetchError msg)
  | Some (Done products) =>
      if (length products =? 0)%nat
      then Some (json 404 (Message "No products found matching required criteria."))
      else Some (json 200 (Products products))
  end.

End Controllers.

(** ** Regular expressions of the search filter

    [{ $regex: v, $options: 'i' }] hands the text of a query parameter
    to the regular-expression engine of the store. The model covers the
    patterns built from ordinary characters and [.]; [compile] is [None]
    on a pattern that uses any other metacharacter. Case is folded on
    ASCII letters. *)

Module Regex.
Import JsString.

Inductive Item : Type :=
| Lit (a : ascii)
| Any.

Definition metacharacters : list ascii :=
  list_ascii_of_string "\^$.[|()?*+{".

Definition is_meta (a : ascii) : bool :=
  existsb (Ascii.eqb a) metacharacters.

Fixpoint compile (pattern : string) : option (list Item) :=
  match pattern with
  | EmptyString => Some []
  | String a r =>
      if Ascii.eqb a "." then cons Any <$> compile r
      else if is_meta a then None
      else cons (Lit a) <$> compile r
  end.

(** Bytes 10xxxxxx continue a UTF-8 character. *)
Definition is_continuation (a : ascii) : bool :=
  ((128 <=? code a) && (code a <? 192))%N.

Fixpoint skip_continuation (s : string) : string :=
  match s with
  | String a r => if is_continuation a then skip_continuation r else s
  | EmptyString => s
  end.

Definition newline : ascii := ascii_of_N 10.

(** The items match at the front of [s]; [.] takes one character
    other than a newline. *)
Fixpoint match_here (items : list Item) (s : string) : bool :=
  match items with
  | [] => true
  | Lit a :: rest =>
      match s with
      | String b r => eqb_ci a b && match_here rest r
      | EmptyString => false
      end
  | Any :: rest =>
      match s with
      | String b r =>
          negb (Ascii.eqb b newline) && match_here rest (skip_continuation r)
      | EmptyString => false
      end
  end.

(** The items match somewhere in [s]. *)
Fixpoint search (items : list Item) (s : string) : bool :=
  match_here items s
  || match s with
     | String _ r => search items r
     | EmptyString => false
     end.

End Regex.

(** ** The store

    A model of the MongoDB collection behind the mongoose model
    [Product], as far as the controllers use it. Documents are kept in
    insertion order, which is the order an unsorted [find] returns. The
    [_id] and the two timestamps mongoose maintains are left out of the
    documents. An update is followed in full when its keys are paths
    [productSchema] declares or keys strict mode drops; one that names
    [_id] or a path with a dot is followed as far as the failure of its
    cast or its refusal ([castError], [refused]). *)

#[global] Instance Q_eq_dec : EqDecision Q.
Proof. solve_decision. Defined.

#[global] Instance JsNumber_eq_dec : EqDecision JsNumber.t.
Proof. solve_decision. Defined.

#[global] Instance JsValue_eq_dec : EqDecision JsValue.
Proof. solve_decision. Defined.

Module Mongo.

(** The paths of [productSchema] of type [String]; all have
    [trim: true]. *)
Definition string_paths : list string :=
  ["sku"; "name"; "brand"; "color"; "size"].

Definition is_string_path (k : string) : bool :=
  existsb (String.eqb k) string_paths.

(** A key with a dot is a path into a subdocument. *)
Definition dotted (k : string) : bool :=
  existsb (Ascii.eqb ".") (list_ascii_of_string k).

(** The text of an ObjectId: 24 hexadecimal digits. *)
Definition is_hex (a : ascii) : bool :=
  let n := JsString.code a in
  ((48 <=? n) && (n <=? 57) || (65 <=? n) && (n <=? 70)
   || (97 <=? n) && (n <=? 102))%N.

Definition is_object_id (s : string) : bool :=
  (String.length s =? 24)%nat && forallb is_hex (list_ascii_of_string s).

(** The keys of an update that strict mode does not drop although
    [productSchema] does not declare them: [_id], a path of every
    schema, and a key with a dot. *)
Definition kept_key (k : string) : bool := dotted k || String.eqb k "_id".

(** The update [{$set: product}] after mongoose has cast it against
    the schema: the string paths are trimmed, the three numeric paths
    carry the parsed numbers, the kept keys come with their cells, and
    every other key is dropped (strict mode). *)
Definition castUpdate (p : ValidProduct) : Doc :=
  <["mrp" := VNum (vp_mrp p)]>
    (<["price" := VNum (vp_price p)]>
       (<["quantity" := VNum (JsNumber.of_int (vp_quantity p))]>
          (((λ s, VStr (JsString.trim s))
              <$> filter (λ kv, is_string_path kv.1 = true) (vp_row p))
           ∪ (VStr <$> filter (λ kv, kept_key kv.1 = true) (vp_row p))))).

(** The cast of [_id] to ObjectId fails on a cell that is no ObjectId. *)
Definition castError (p : ValidProduct) : option string :=
  match vp_row p !! "_id" with
  | Some s =>
      if is_object_id s then None
      else Some "Cast to ObjectId failed at path _id"
  | None => None
  end.

(** An update that carries a kept key. The server refuses a path below
    a path of the same [$set], and a change of [_id]; the model follows
    the server no further on such updates and takes each as refused. *)
Definition refused (p : ValidProduct) : bool :=
  existsb (λ kv, kept_key kv.1) (map_to_list (vp_row p)).

Definition refused_update : string := "the update cannot be applied".

(** The value the unique index on [sku] sees; a document without the
    field is indexed as [None]. *)
Definition sku_key (d : Doc) : option JsValue := d !! "sku".

Definition has_sku (k : string) (d : Doc) : bool :=
  bool_decide (sku_key d = Some (VStr k)).

Definition duplicate_key : string := "E11000 duplicate key error".

(** One [updateOne] with [upsert: true]. The filter value is cast like
    the path (trimmed). The first document with that sku gets the cast
    update merged over it; without one, a document made of the filter
    and the update is appended. The unique index rejects a write that
    would give two documents the same sku.

    [uploadProducts] never builds a filter without sku (lemma
    [operations_keyed]); the model maps it to a rejected write. *)
Definition updateOne (op : WriteOp) (c : list Doc) : list Doc * option string :=
  match filter_sku op with
  | None => (c, Some "filter without sku")
  | Some k0 =>
      if refused (update_set op) then (c, Some refused_update) else
      let k := JsString.trim k0 in
      let set := castUpdate (update_set op) in
      match list_find (λ d, has_sku k d = true) c with
      | Some (i, d) =>
          let d' := set ∪ d in
          if bool_decide (sku_key d' ∈ sku_key <$> delete i c)
          then (c, Some duplicate_key)
          else (<[i := d']> c, None)
      | None =>
          let d' := set ∪ {["sku" := VStr k]} in
          if bool_decide (sku_key d' ∈ sku_key <$> c)
          then (c, Some duplicate_key)
          else (c ++ [d'], None)
      end
  end.

(** The operations as the server runs them: ordered, so in sequence,
    and the first error stops the batch; earlier writes stay. *)
Fixpoint runOrdered (ops : list WriteOp) (c : list Doc)
  : list Doc * option string :=
  match ops with
  | [] => (c, None)
  | op :: rest =>
      match updateOne op c with
      | (c', None) => runOrdered rest c'
      | (c', Some err) => (c', Some err)
      end
  end.

(** [Product.bulkWrite(operations)]: mongoose casts every operation
    before it sends the batch, so a cast that fails throws with nothing
    written; the batch that passes is run in order. *)
Definition bulkWrite (ops : list WriteOp) (c : list Doc)
  : list Doc * option string :=
  match head (omap (λ op, castError (update_set op)) ops) with
  | Some err => (c, Some err)
  | None => runOrdered ops c
  end.

(** The pattern of one part of the filter, compiled; [Some None] when
    the filter has no such part. *)
Definition compile_field (v : option string) : option (option (list Regex.Item)) :=
  match v with
  | None => Some None
  | Some pattern => Some <$> Regex.compile pattern
  end.

Definition field_matches (items : option (list Regex.Item)) (v : option JsValue)
  : bool :=
  match items with
  | None => true
  | Some its =>
      match v with
      | Some (VStr s) => Regex.search its s
      | _ => false
      end
  end.

Definition above (bound : option JsNumber.t) (x : JsNumber.t) : bool :=
  match bound with
  | None => true
  | Some b => JsNumber.leb b x
  end.

Definition below (bound : option JsNumber.t) (x : JsNumber.t) : bool :=
  match bound with
  | None => true
  | Some b => JsNumber.leb x b
  end.

Definition price_matches (range : option PriceRange) (v : option JsValue) : bool :=
  match range with
  | None => true
  | Some rg =>
      match v with
      | Some (VNum x) => above (gte rg) x && below (lte rg) x
      | _ => false
      end
  end.

(** mongoose refuses to cast [NaN] to the [Number] path. *)
Definition bound_is_NaN (bound : option JsNumber.t) : bool :=
  match bound with
  | Some b => JsNumber.isNaN b
  | None => false
  end.

Definition cast_fails (range : option PriceRange) : bool :=
  match range with
  | Some rg => bound_is_NaN (gte rg) || bound_is_NaN (lte rg)
  | None => false
  end.

(** [.skip(n)]: the server rejects a negative value. [.limit(n)]: 0 is
    no limit, and the driver sends a negative [n] as [-n]. *)
Definition page_of (skip limit : option Z) (l : list Doc) : Result (list Doc) :=
  let skipped :=
    match skip with
    | None => Done l
    | Some n => if (n <? 0)%Z then Thrown "skip must be non-negative"
                else Done (drop (Z.to_nat n) l)
    end in
  match skipped with
  | Thrown msg => Thrown msg
  | Done l' =>
      match limit with
      | None => Done l'
      | Some n => if (n =? 0)%Z then Done l'
                  else Done (take (Z.to_nat (Z.abs n)) l')
      end
  end.

(** [Product.find(f)] with the optional [.skip] and [.limit]: the
    patterns of the filter are compiled and its bounds cast; the
    documents that pass every part of the filter come back in storage
    order. A field that is missing or not a string matches no pattern, a
    price that is missing or not a number lies in no range. [None] when a
    pattern is outside the fragment of [Regex]. *)
Definition find (f : Filter) (skip limit : option Z) (c : list Doc)
  : option (Result (list Doc)) :=
  name_re ← compile_field (filter_name f);
  brand_re ← compile_field (filter_brand f);
  color_re ← compile_field (filter_color f);
  if cast_fails (filter_price f)
  then Some (Thrown "Cast to Number failed for value NaN at path price")
  else
    let hit (d : Doc) :=
      field_matches name_re (d !! "name")
      && field_matches brand_re (d !! "brand")
      && field_matches color_re (d !! "color")
      && price_matches (filter_price f) (d !! "price") in
    Some (page_of skip limit (List.filter hit c)).

Definition countDocuments (c : list Doc) : Result nat := Done (length c).

(** The model as the store of the controllers. *)
#[global] Instance store : CatalogStore (list Doc) :=
  Build_CatalogStore (list Doc) bulkWrite find countDocuments.

End Mongo.

(** * Definitions for the properties *)

(** ** The four tests of the handler, as a list *)

(** The tests of the ['data'] handler under names, each built from the
    handler's own expressions; the lemmas on [validateRow] go through
    them. *)
Module Rules.

Definition required_fields : list string :=
  ["sku"; "name"; "brand"; "mrp"; "price"].

(** The first test: a required cell is falsy. *)
Definition missing_required (r : RawRow) : bool :=
  existsb (λ f, negb (JsString.truthy (r !! f))) required_fields.

(** The second test: one of the three parsed values is [NaN]. *)
Definition bad_number (r : RawRow) : bool :=
  JsNumber.isNaN (parseFloatV (r !! "mrp"))
  || JsNumber.isNaN (parseFloatV (r !! "price"))
  || JsNumber.isNaNInt (parseQuantity (r !! "quantity")).

(** The third test: the parsed price is above the parsed mrp. *)
Definition price_above_mrp (r : RawRow) : bool :=
  JsNumber.gtb (parseFloatV (r !! "price")) (parseFloatV (r !! "mrp")).

(** The fourth test: the parsed quantity is negative. *)
Definition negative_quantity (r : RawRow) : bool :=
  JsNumber.ltbInt (parseQuantity (r !! "quantity")) 0.

(** The tests in source order, each with the reason it pushes. *)
Definition rules : list ((RawRow → bool) * Reason) :=
  [ (missing_required, MissingRequired);
    (bad_number, InvalidNumber);
    (price_above_mrp, PriceAboveMrp);
    (negative_quantity, NegativeQuantity) ].

(** The reason of the first test that fires on [r]. *)
Definition first_failure (r : RawRow) : option Reason :=
  snd <$> List.find (λ rule, rule.1 r) rules.

(** The product the handler pushes when no test fires. *)
Definition product_of (r : RawRow) : ValidProduct :=
  {| vp_row := r;
     vp_mrp := parseFloatV (r !! "mrp");
     vp_price := parseFloatV (r !! "price");
     vp_quantity := parseQuantity (r !! "quantity") |}.

(** The outcome of the tests taken in that order. *)
Definition verdict (r : RawRow) : Outcome :=
  match first_failure r with
  | Some why => Rejected why
  | None => Accepted (product_of r)
  end.

End Rules.

(** The quantity the numeric check reads: 0 when the cell is absent or
    empty, the result of [parseInt] otherwise. *)
Definition quantity_number (r : RawRow) : option Z :=
  match r !! "quantity" with
  | None => Some 0%Z
  | Some s => if string_dec s "" then Some 0%Z else JsParse.parseInt s
  end.

(** ** The four rules of the row validator

    [Stated] has the rules in the words of the specification (section
    4.1); [Checks] has them as the validator applies them. Both read the
    cells of the row and the parsers only, none of the handler's
    expressions. *)

Module Stated.

(** Rule 1: sku, name, brand, mrp and price are present and non-empty
    after trimming. *)
Definition blank (v : option string) : bool :=
  match v with
  | Some s => if string_dec (JsString.trim s) "" then true else false
  | None => true
  end.

Definition missing_required (r : RawRow) : bool :=
  existsb (λ f, blank (r !! f)) Rules.required_fields.

(** Rule 2: mrp and price parse as finite numbers; quantity (or 0 if
    absent) parses as an integer. *)
Definition number (r : RawRow) (f : string) : JsNumber.t :=
  match r !! f with
  | Some s => JsParse.parseFloat s
  | None => JsNumber.NaN
  end.

Definition finite (x : JsNumber.t) : bool :=
  match x with JsNumber.Fin _ => true | _ => false end.

Definition bad_number (r : RawRow) : bool :=
  negb (finite (number r "mrp")) || negb (finite (number r "price"))
  || negb (bool_decide (is_Some (quantity_number r))).

(** Rule 3: the parsed price is at most the parsed mrp. *)
Definition price_above_mrp (r : RawRow) : bool :=
  negb (JsNumber.leb (number r "price") (number r "mrp")).

(** Rule 4: the parsed quantity is at least 0. *)
Definition negative_quantity (r : RawRow) : bool :=
  match quantity_number r with
  | Some q => (q <? 0)%Z
  | None => false
  end.

Definition rules : list ((RawRow → bool) * Reason) :=
  [ (missing_required, MissingRequired);
    (bad_number, InvalidNumber);
    (price_above_mrp, PriceAboveMrp);
    (negative_quantity, NegativeQuantity) ].

(** The first failing rule in evaluation order determines the reason. *)
Definition first_failure (r : RawRow) : option Reason :=
  snd <$> List.find (λ rule, rule.1 r) rules.

End Stated.

Module Checks.

(** Rule 1: sku, name, brand, mrp and price are present and not the
    empty string; nothing is trimmed. *)
Definition empty (v : option string) : bool :=
  match v with
  | Some s => if string_dec s "" then true else false
  | None => true
  end.

Definition missing_required (r : RawRow) : bool :=
  existsb (λ f, empty (r !! f)) Rules.required_fields.

(** Rule 2: [parseFloat] of mrp and of price is not NaN, and the
    quantity (0 when absent or empty, [parseInt] of the cell otherwise)
    is not NaN. *)
Definition number (r : RawRow) (f : string) : JsNumber.t :=
  match r !! f with
  | Some s => JsParse.parseFloat s
  | None => JsNumber.NaN
  end.

Definition bad_number (r : RawRow) : bool :=
  JsNumber.isNaN (number r "mrp") || JsNumber.isNaN (number r "price")
  || negb (bool_decide (is_Some (quantity_number r))).

(** Rule 3: the parsed price is not above the parsed mrp. *)
Definition price_above_mrp (r : RawRow) : bool :=
  JsNumber.gtb (number r "price") (number r "mrp").

(** Rule 4: the quantity is not negative. *)
Definition negative_quantity (r : RawRow) : bool :=
  match quantity_number r with
  | Some q => (q <? 0)%Z
  | None => false
  end.

(** The rules in evaluation order, each with its reason. *)
Definition rules : list ((RawRow → bool) * Reason) :=
  [ (missing_required, MissingRequired);
    (bad_number, InvalidNumber);
    (price_above_mrp, PriceAboveMrp);
    (negative_quantity, NegativeQuantity) ].

(** The reason of the first rule that fails on [r], going through
    [rules] from the left and stopping there. *)
Definition first_failure (r : RawRow) : option Reason :=
  snd <$> List.find (λ rule, rule.1 r) rules.

(** The Validated Product of a row no rule fails on: the row, with the
    three parsed numbers. *)
Definition product_of (r : RawRow) : ValidProduct :=
  {| vp_row := r;
     vp_mrp := number r "mrp";
     vp_price := number r "price";
     vp_quantity := quantity_number r |}.

(** What the row validator has to return by the rules. *)
Definition verdict (r : RawRow) : Outcome :=
  match first_failure r with
  | Some why => Rejected why
  | None => Accepted (product_of r)
  end.

End Checks.

(** ** The partition of the rows *)

(** The accepted set: the products of the rows the validator accepts, in
    file order. *)
Definition accepted (rs : list RawRow) : list ValidProduct :=
  omap (λ r, match validateRow r with
             | Accepted p => Some p
             | Rejected _ => None
             end) rs.

Definition is_rejected (r : RawRow) : bool :=
  match validateRow r with
  | Accepted _ => false
  | Rejected _ => true
  end.

(** The rejected set: the rows the validator rejects, in file order. *)
Definition rejected (rs : list RawRow) : list RawRow := List.filter is_rejected rs.

(** The rejection records of the rows [rs] when [n] rows came before. *)
Fixpoint rejections (n : nat) (rs : list RawRow) : list Rejection :=
  match rs with
  | [] => []
  | r :: rest =>
      match validateRow r with
      | Rejected why =>
          {| row := S n; data := r; reason := why |} :: rejections (S n) rest
      | Accepted _ => rejections (S n) rest
      end
  end.

(** The state of the handlers after the rows [rs]. *)
Definition run (rs : list RawRow) : UploadState := fold_left onData rs initialState.

(** The three components of what an upload returns: the reply, the
    batches sent to the store, the store afterwards. *)
Definition reply {DB : Type} (out : Response * list (list WriteOp) * DB) : Response :=
  out.1.1.

Definition batches {DB : Type} (out : Response * list (list WriteOp) * DB)
  : list (list WriteOp) := out.1.2.

Definition store_after {DB : Type} (out : Response * list (list WriteOp) * DB) : DB :=
  out.2.

(** The summary the specification asks for. *)
Definition summary_of (rs : list RawRow) : Response :=
  json 201 (Summary "CSV data processed successfully."
              (length (accepted rs)) (length (rejected rs)) (rejections 0 rs)).

(** ** Listing and search criteria *)

(** A page or limit parameter as the listing contract takes it: absent,
    which gives the default, or a text whose integer is at least 1. *)
Definition requested (param : option string) (default value : Z) : Prop :=
  (param = None ∧ value = default)
  ∨ (∃ s, param = Some s ∧ JsParse.parseInt s = Some value ∧ (1 ≤ value)%Z).

Module Criteria.

Fixpoint lower_string (s : string) : string :=
  match s with
  | EmptyString => EmptyString
  | String a r => String (JsString.lower a) (lower_string r)
  end.

(** [needle] occurs in [hay] as a substring, up to the case of ASCII
    letters. *)
Definition contains_ci (needle hay : string) : Prop :=
  ∃ pre mid post,
    hay = pre +:+ mid +:+ post ∧ lower_string mid = lower_string needle.

(** A text criterion: when the parameter is provided (present and not
    empty), the field is a string that contains it. *)
Definition text_ok (param : option string) (field : option JsValue) : Prop :=
  ∀ s, param = Some s → s ≠ "" →
       ∃ t, field = Some (VStr t) ∧ contains_ci s t.

(** The inclusive bounds: when the parameter is provided, the price is
    a number on the right side of it. *)
Definition min_ok (param : option string) (field : option JsValue) : Prop :=
  ∀ s, param = Some s → s ≠ "" →
       ∃ x, field = Some (VNum x)
            ∧ JsNumber.leb (JsParse.parseFloat s) x = true.

Definition max_ok (param : option string) (field : option JsValue) : Prop :=
  ∀ s, param = Some s → s ≠ "" →
       ∃ x, field = Some (VNum x)
            ∧ JsNumber.leb x (JsParse.parseFloat s) = true.

(** The entry satisfies every provided criterion. *)
Definition satisfies (q : SearchQuery) (d : Doc) : Prop :=
  text_ok (q_name q) (d !! "name")
  ∧ text_ok (q_brand q) (d !! "brand")
  ∧ text_ok (q_color q) (d !! "color")
  ∧ min_ok (q_minPrice q) (d !! "price")
  ∧ max_ok (q_maxPrice q) (d !! "price").

(** No character of [s] is a regular-expression metacharacter. *)
Fixpoint plain (s : string) : bool :=
  match s with
  | EmptyString => true
  | String a r => negb (Regex.is_meta a) && plain r
  end.

Definition plain_param (v : option string) : bool :=
  match v with
  | Some s => plain s
  | None => true
  end.

(** A bound that is absent, empty, or parses to a number. *)
Definition number_param (v : option string) : bool :=
  match v with
  | Some s =>
      if string_dec s "" then true
      else negb (JsNumber.isNaN (JsParse.parseFloat s))
  | None => true
  end.

(** The queries the amended search property covers. *)
Definition well_formed (q : SearchQuery) : bool :=
  plain_param (q_name q) && plain_param (q_brand q) && plain_param (q_color q)
  && number_param (q_minPrice q) && number_param (q_maxPrice q).

End Criteria.

(** The items of a pattern of ordinary characters. *)
Fixpoint literal (s : string) : list Regex.Item :=
  match s with
  | EmptyString => []
  | String a r => Regex.Lit a :: literal r
  end.

(** The compiled form of a text parameter that has no metacharacter. *)
Definition items_of (v : option string) : option (list Regex.Item) :=
  literal <$> regexOf v.

(** The test [find] applies to each document for a well-formed query. *)
Definition keep (q : SearchQuery) (d : Doc) : bool :=
  Mongo.field_matches (items_of (q_name q)) (d !! "name")
  && Mongo.field_matches (items_of (q_brand q)) (d !! "brand")
  && Mongo.field_matches (items_of (q_color q)) (d !! "color")
  && Mongo.price_matches (filter_price (buildFilter q)) (d !! "price").

(** ** Upserts keyed on sku *)

(** The unique index on [sku]: no two documents have the same value
    there (a missing field counts as a value). *)
Definition unique_skus (c : list Doc) : Prop := NoDup (Mongo.sku_key <$> c).

(** The ingestion contract (section 4.2): the header of the file names
    the expected columns, so every row has cells under these names
    only. *)
Definition expected_columns : list string :=
  ["sku"; "name"; "brand"; "color"; "size"; "mrp"; "price"; "quantity"].

Definition in_format (r : RawRow) : bool :=
  forallb (λ kv, existsb (String.eqb kv.1) expected_columns) (map_to_list r).

Definition expected_format (rs : list RawRow) : bool := forallb in_format rs.

(** What a batch of upserts does to a catalog, said without positions:
    every key is first made present, by appending a document that has
    only the sku, and every document then takes, in the order of the
    batch, the updates written under its own sku. *)
Module Upsert.

Definition base (k : string) : Doc := {["sku" := VStr k]}.

Definition present (k : string) (c : list Doc) : bool :=
  bool_decide (Some (VStr k) ∈ Mongo.sku_key <$> c).

Definition ensure (k : string) (c : list Doc) : list Doc :=
  if present k c then c else c ++ [base k].

Definition layer (k : string) (set d : Doc) : Doc :=
  if Mongo.has_sku k d then set ∪ d else d.

(** One upsert of the update [ko.2] under the sku [ko.1]. *)
Definition apply (c : list Doc) (ko : string * Doc) : list Doc :=
  layer ko.1 ko.2 <$> ensure ko.1 c.

Definition run (kops : list (string * Doc)) (c : list Doc) : list Doc :=
  fold_left apply kops c.

Definition ensure_all (kops : list (string * Doc)) (c : list Doc) : list Doc :=
  fold_left (λ c ko, ensure ko.1 c) kops c.

Definition layers (kops : list (string * Doc)) (d : Doc) : Doc :=
  fold_left (λ d ko, layer ko.1 ko.2 d) kops d.

(** The updates of the batch written under the sku of [d], merged,
    later ones over earlier ones. *)
Definition merged (kops : list (string * Doc)) (d : Doc) : Doc :=
  fold_left (λ acc ko, if Mongo.has_sku ko.1 d then ko.2 ∪ acc else acc) kops ∅.

(** The update writes the sku it is filed under. *)
Definition consistent (ko : string * Doc) : Prop :=
  ko.2 !! "sku" = Some (VStr ko.1).

End Upsert.

(** The key and the cast update of an operation. *)
Definition kop (op : WriteOp) : string * Doc :=
  (JsString.trim (default "" (filter_sku op)), Mongo.castUpdate (update_set op)).

(** An operation as [uploadProducts] builds it: the filter is the sku of
    the product it sets, and the product has one. *)
Definition keyed (op : WriteOp) : Prop :=
  ∃ k0, filter_sku op = Some k0 ∧ product_sku (update_set op) = Some k0.

(** The same for the product of an operation. *)
Definition kop_of_product (p : ValidProduct) : string * Doc :=
  (JsString.trim (default "" (product_sku p)), Mongo.castUpdate p).

(** The keys and cast updates of the batch an upload of [rs] sends. *)
Definition kops_of (rs : list RawRow) : list (string * Doc) :=
  kop <$> operations_of (accepted rs).

(** The sku a product is stored under: its sku, trimmed by the schema. *)
Definition product_key (p : ValidProduct) : option string :=
  JsString.trim <$> product_sku p.



(** ** Sample rows, queries and entries *)

(** The header of the test files, and a data line under it. *)
Definition csv_header : list string :=
  ["sku"; "name"; "brand"; "color"; "size"; "mrp"; "price"; "quantity"].

Definition csv_line (cells : list string) : RawRow := list_to_map (zip csv_header cells).

(** The two rows of the valid-only test file. *)
Definition valid_file : list RawRow :=
  [ csv_line ["TSHIRT-RED-M-001"; "T-Shirt"; "CoolBrand"; "Red"; "M"; "800"; "500"; "10"];
    csv_line ["JEANS-BLU-32-002"; "Jeans"; "DenimCo"; "Blue"; "32"; "2000"; "1500"; "5"] ].

(** A row whose sku is one blank and whose name starts with a blank. *)
Definition blank_sku_row : RawRow :=
  list_to_map [("sku", " "); ("name", " Shirt"); ("brand", "CoolBrand");
               ("mrp", "800"); ("price", "500")].

(** A row whose sku is one blank and whose price is above its mrp. *)
Definition blank_sku_dear_row : RawRow :=
  list_to_map [("sku", " "); ("name", "Shirt"); ("brand", "CoolBrand");
               ("mrp", "10"); ("price", "20")].

(** A row whose mrp is the text [Infinity]. *)
Definition infinite_mrp_row : RawRow :=
  list_to_map [("sku", "TSHIRT-RED-M-001"); ("name", "T-Shirt");
               ("brand", "CoolBrand"); ("mrp", "Infinity"); ("price", "500")].

(** A file in which the first sku comes back on the third row. *)
Definition repeated_sku_file : list RawRow :=
  [ csv_line ["TSHIRT-RED-M-001"; "T-Shirt"; "CoolBrand"; "Red"; "M"; "800"; "500"; "10"];
    csv_line ["JEANS-BLU-32-002"; "Jeans"; "DenimCo"; "Blue"; "32"; "2000"; "1500"; "5"];
    csv_line [" TSHIRT-RED-M-001"; "T-Shirt"; "CoolBrand"; "Red"; "L"; "800"; "450"; "7"] ].

(** Its accepted products: the last one, and the two before it. *)
Definition repeated_last : ValidProduct :=
  Rules.product_of
    (csv_line [" TSHIRT-RED-M-001"; "T-Shirt"; "CoolBrand"; "Red"; "L"; "800"; "450"; "7"]).

Definition repeated_before : list ValidProduct :=
  [ Rules.product_of
      (csv_line ["TSHIRT-RED-M-001"; "T-Shirt"; "CoolBrand"; "Red"; "M"; "800"; "500"; "10"]);
    Rules.product_of
      (csv_line ["JEANS-BLU-32-002"; "Jeans"; "DenimCo"; "Blue"; "32"; "2000"; "1500"; "5"]) ].

(** The catalog entries of the test suite's search fixture. *)
Definition entry (sku name brand color : string) (price mrp quantity : Z) : Doc :=
  list_to_map
    [("sku", VStr sku); ("name", VStr name); ("brand", VStr brand);
     ("color", VStr color); ("price", VNum (JsNumber.of_int (Some price)));
     ("mrp", VNum (JsNumber.of_int (Some mrp)));
     ("quantity", VNum (JsNumber.of_int (Some quantity)))].

Definition search_fixture : list Doc :=
  [ entry "A-001" "Red T-Shirt" "StreamThreads" "Red" 500 800 10;
    entry "B-002" "Blue Jeans" "DenimWorks" "Blue" 1500 2000 5;
    entry "C-003" "Green Polo" "StreamThreads" "Green" 1200 1500 8;
    entry "D-004" "Black Jacket" "UrbanEdge" "Black" 3000 4000 3;
    entry "E-005" "Red Sneakers" "UrbanEdge" "Red" 2500 3000 7 ].

(** Fifteen entries, as in the listing test. *)
Definition listing_fixture : list Doc :=
  (λ i, entry ("SKU-" +:+ pretty i) ("Product " +:+ pretty i) "TestBrand" "" 80 100 10)
    <$> seq 1 15.

(** Queries: none of the parameters; a brand that is the single
    character [.]; the combined query of the tests, with a lower bound of
    0; a brand no entry has. *)
Definition no_query : SearchQuery :=
  {| q_name := None; q_brand := None; q_color := None;
     q_minPrice := None; q_maxPrice := None |}.

Definition dot_brand_query : SearchQuery :=
  {| q_name := None; q_brand := Some "."; q_color := None;
     q_minPrice := None; q_maxPrice := None |}.

Definition combined_query : SearchQuery :=
  {| q_name := Some "red sneakers"; q_brand := Some "UrbanEdge";
     q_color := Some "Red"; q_minPrice := Some "0"; q_maxPrice := None |}.

Definition absent_brand_query : SearchQuery :=
  {| q_name := None; q_brand := Some "NonExistentBrand"; q_color := None;
     q_minPrice := None; q_maxPrice := None |}.

(** An entry of brand Acme. *)
Definition acme_entry : Doc := entry "P-001" "Shirt" "Acme" "Red" 5 10 1.

(** ** Definitions for the further properties *)

(** The cells the row validator reads. *)
Definition validated_fields : list string :=
  ["sku"; "name"; "brand"; "mrp"; "price"; "quantity"].

(** The validators [productSchema] declares on the numeric paths, as
    mongoose evaluates them on a document: a validator is not run on a
    path that is absent, [min: 0] is [v >= 0], and the validator of
    [price] is [value <= this.mrp]. *)
Module Schema.

Definition min_zero (d : Doc) (path : string) : bool :=
  match d !! path with
  | None => true
  | Some (VNum x) => JsNumber.leb (JsNumber.of_int (Some 0%Z)) x
  | Some (VStr _) => false
  end.

Definition price_validator (d : Doc) : bool :=
  match d !! "price" with
  | None => true
  | Some (VNum value) =>
      match d !! "mrp" with
      | Some (VNum mrp) => JsNumber.leb value mrp
      | _ => false
      end
  | Some (VStr _) => false
  end.

(** What the row validator secures of the schema on a stored entry:
    the price validator and the lower bound of the quantity. *)
Definition checked (d : Doc) : Prop :=
  price_validator d = true ∧ min_zero d "quantity" = true.

(** The entry has its three numbers, the price is not above the mrp and
    the quantity is not negative. *)
Definition complete (d : Doc) : Prop :=
  ∃ mrp price quantity,
    d !! "mrp" = Some (VNum mrp) ∧ d !! "price" = Some (VNum price)
    ∧ d !! "quantity" = Some (VNum quantity)
    ∧ JsNumber.leb price mrp = true
    ∧ JsNumber.leb (JsNumber.of_int (Some 0%Z)) quantity = true.

End Schema.

(** The rows of a file without the ones the validator rejects. *)
Definition accepted_rows (rs : list RawRow) : list RawRow :=
  List.filter (λ r, negb (is_rejected r)) rs.

(** The search for a brand alone. *)
Definition brand_query (b : string) : SearchQuery :=
  {| q_name := None; q_brand := Some b; q_color := None;
     q_minPrice := None; q_maxPrice := None |}.

(** The decimal text of a page number from 1 to 3. *)
Definition page_text (p : nat) : string :=
  match p with
  | 1 => "1"
  | 2 => "2"
  | _ => "3"
  end.


(** The products of a listing reply; none when the reply is no page. *)
Definition page_products (r : option Response) : list Doc :=
  match r with
  | Some {| body := Page _ _ _ products |} => products
  | _ => []
  end.

(** Two text parameters that differ at most in the case of ASCII letters. *)
Definition same_text (a b : option string) : Prop :=
  match a, b with
  | Some s, Some t => Criteria.lower_string s = Criteria.lower_string t
  | None, None => True
  | _, _ => False
  end.

(** Two queries that differ at most in the case of their texts. *)
Definition same_query (q1 q2 : SearchQuery) : Prop :=
  same_text (q_name q1) (q_name q2)
  ∧ same_text (q_brand q1) (q_brand q2)
  ∧ same_text (q_color q1) (q_color q2)
  ∧ q_minPrice q1 = q_minPrice q2
  ∧ q_maxPrice q1 = q_maxPrice q2.

(** A query none of whose parameters is provided. *)
Definition unfiltered (q : SearchQuery) : bool :=
  negb (JsString.truthy (q_name q)) && negb (JsString.truthy (q_brand q))
  && negb (JsString.truthy (q_color q)) && negb (JsString.truthy (q_minPrice q))
  && negb (JsString.truthy (q_maxPrice q)).

(** A document is under one of the skus the file writes. *)
Definition written_by (rs : list RawRow) (d : Doc) : Prop :=
  ∃ p k, p ∈ accepted rs ∧ product_key p = Some k ∧ d !! "sku" = Some (VStr k).

(** Sample data for the further properties: two rows that differ in
    color and size only; a row with a negative price; upper-case and
    lower-case forms of one query; a query with a bound that is no
    number, and one whose bounds exclude each other. *)
Definition red_shirt_row : RawRow :=
  csv_line ["TSHIRT-001"; "T-Shirt"; "CoolBrand"; "Red"; "M"; "800"; "900"; "10"].

Definition blue_shirt_row : RawRow :=
  csv_line ["TSHIRT-001"; "T-Shirt"; "CoolBrand"; "Blue"; "XL"; "800"; "900"; "10"].

Definition negative_price_row : RawRow :=
  csv_line ["REFUND-001"; "Refund"; "CoolBrand"; "Red"; "M"; "-10"; "-20"; ""].

(** A file with an [_id] column whose cell is no ObjectId, and a file
    with a column under the path [name]. *)
Definition id_column_file : list RawRow :=
  [ list_to_map [("_id", "1"); ("sku", "TSHIRT-RED-M-001"); ("name", "T-Shirt");
                 ("brand", "CoolBrand"); ("mrp", "800"); ("price", "500");
                 ("quantity", "10")] ].

Definition dotted_column_file : list RawRow :=
  [ list_to_map [("sku", "TSHIRT-RED-M-001"); ("name", "T-Shirt");
                 ("name.first", "T"); ("brand", "CoolBrand"); ("mrp", "800");
                 ("price", "500"); ("quantity", "10")] ].

Definition upper_query : SearchQuery :=
  {| q_name := None; q_brand := Some "STREAMTHREADS"; q_color := Some "red";
     q_minPrice := None; q_maxPrice := None |}.

Definition lower_query : SearchQuery :=
  {| q_name := None; q_brand := Some "streamthreads"; q_color := Some "RED";
     q_minPrice := None; q_maxPrice := None |}.

Definition word_bound_query : SearchQuery :=
  {| q_name := None; q_brand := None; q_color := None;
     q_minPrice := Some "cheap"; q_maxPrice := None |}.

Definition crossed_bounds_query : SearchQuery :=
  {| q_name := None; q_brand := None; q_color := None;
     q_minPrice := Some "2000"; q_maxPrice := Some "1000" |}.

(** * Properties *)

(** ** The parsers on sample texts *)

Module ParseExamples.
Import JsString JsParse JsNumber.
Local Open Scope Z_scope.

Example trim_both : trim "  TSHIRT-RED-M-001 " = "TSHIRT-RED-M-001".
Proof. reflexivity. Qed.

Example trim_inner : trim " Red Sneakers" = "Red Sneakers".
Proof. reflexivity. Qed.

Example parseInt_plain : parseInt "10" = Some 10.
Proof. reflexivity. Qed.

Example parseInt_negative : parseInt " -5" = Some (-5).
Proof. reflexivity. Qed.

Example parseInt_prefix : parseInt "3.7kg" = Some 3.
Proof. reflexivity. Qed.

Example parseInt_word : parseInt "undefined" = None.
Proof. reflexivity. Qed.

Example parseFloat_plain : parseFloat "800" = Fin (800 # 1).
Proof. reflexivity. Qed.

Example parseFloat_fraction : parseFloat "499.50" = Fin (49950 # 100).
Proof. reflexivity. Qed.

Example parseFloat_exponent : parseFloat "1.5e3" = Fin (1500 # 1).
Proof. reflexivity. Qed.

Example parseFloat_dot_only : parseFloat "." = NaN.
Proof. reflexivity. Qed.

Example parseFloat_trailing_dot : parseFloat "5.x" = Fin (5 # 1).
Proof. reflexivity. Qed.

Example parseFloat_word : parseFloat "not-a-price" = NaN.
Proof. reflexivity. Qed.

Example parseFloat_infinity : parseFloat "-Infinity" = NegInf.
Proof. reflexivity. Qed.

End ParseExamples.

(** ** The row validator and its tests *)

Section ValidatorFacts.
Import Rules.

Lemma missing_required_unfold (r : RawRow) :
  missing_required r =
    negb (JsString.truthy (r !! "sku")) || negb (JsString.truthy (r !! "name"))
    || negb (JsString.truthy (r !! "brand")) || negb (JsString.truthy (r !! "mrp"))
    || negb (JsString.truthy (r !! "price")).
Proof.
  unfold missing_required, required_fields. simpl.
  rewrite orb_false_r. by rewrite !orb_assoc.
Qed.

Lemma validateRow_verdict (r : RawRow) : validateRow r = verdict r.
Proof.
  unfold validateRow, verdict, first_failure, rules. simpl.
  rewrite <- missing_required_unfold.
  destruct (missing_required r); [done |].
  fold (bad_number r). destruct (bad_number r); [done |].
  fold (price_above_mrp r). destruct (price_above_mrp r); [done |].
  fold (negative_quantity r). by destruct (negative_quantity r).
Qed.

Lemma truthy_false (v : option string) :
  JsString.truthy v = false ↔ v = None ∨ v = Some "".
Proof.
  destruct v as [s |]; simpl.
  - destruct (string_dec s "") as [-> | Hne]; split; try done.
    + intros _. by right.
    + by intros [? | [= ->]].
  - split; [| done]. intros _. by left.
Qed.

Lemma missing_required_spec (r : RawRow) :
  missing_required r = true ↔
  ∃ f, f ∈ required_fields ∧ (r !! f = None ∨ r !! f = Some "").
Proof.
  unfold missing_required. rewrite existsb_exists. split.
  - intros (f & Hin & Hf). exists f. split; [by apply list_elem_of_In |].
    apply truthy_false. by apply negb_true_iff.
  - intros (f & Hin & Hf). exists f. split; [by apply list_elem_of_In |].
    apply negb_true_iff. by apply truthy_false.
Qed.

Lemma validateRow_missing (r : RawRow) :
  validateRow r = Rejected MissingRequired ↔ missing_required r = true.
Proof.
  rewrite validateRow_verdict. unfold verdict, first_failure, rules. simpl.
  destruct (missing_required r); [done |].
  destruct (bad_number r); [done |].
  destruct (price_above_mrp r); [done |].
  by destruct (negative_quantity r).
Qed.

Lemma validateRow_invalid_number (r : RawRow) :
  validateRow r = Rejected InvalidNumber ↔
  missing_required r = false ∧ bad_number r = true.
Proof.
  rewrite validateRow_verdict. unfold verdict, first_failure, rules. simpl.
  destruct (missing_required r); [by split; [| intros [? _]] |].
  destruct (bad_number r); [done |].
  destruct (price_above_mrp r); [by split; [| intros [_ ?]] |].
  destruct (negative_quantity r); by split; [| intros [_ ?]].
Qed.

Lemma validateRow_accepted (r : RawRow) (p : ValidProduct) :
  validateRow r = Accepted p → p = product_of r.
Proof.
  rewrite validateRow_verdict. unfold verdict.
  destruct (first_failure r); [done |]. by intros [= <-].
Qed.

End ValidatorFacts.

(** ** Required fields and pass-through of the string cells *)

Section CastFacts.

Lemma string_path_not_kept (f : string) :
  Mongo.is_string_path f = true → Mongo.kept_key f = false.
Proof.
  unfold Mongo.is_string_path, Mongo.string_paths. simpl. intros Hf.
  destruct (String.eqb_spec f "sku") as [Heq | _]; [by rewrite Heq |].
  destruct (String.eqb_spec f "name") as [Heq | _]; [by rewrite Heq |].
  destruct (String.eqb_spec f "brand") as [Heq | _]; [by rewrite Heq |].
  destruct (String.eqb_spec f "color") as [Heq | _]; [by rewrite Heq |].
  destruct (String.eqb_spec f "size") as [Heq | _]; [by rewrite Heq |].
  discriminate Hf.
Qed.

Lemma castUpdate_string_path (p : ValidProduct) (f : string) :
  Mongo.is_string_path f = true →
  Mongo.castUpdate p !! f = (λ s, VStr (JsString.trim s)) <$> vp_row p !! f.
Proof.
  intros Hf. unfold Mongo.castUpdate.
  assert (f ≠ "mrp" ∧ f ≠ "price" ∧ f ≠ "quantity") as (H1 & H2 & H3).
  { repeat split; intros ->; discriminate Hf. }
  rewrite !lookup_insert_ne by done.
  rewrite lookup_union_l.
  - rewrite lookup_fmap. f_equal.
    destruct (vp_row p !! f) as [s |] eqn:Hs.
    + by apply map_lookup_filter_Some.
    + apply map_lookup_filter_None. left. exact Hs.
  - rewrite lookup_fmap.
    assert (filter (λ kv, Mongo.kept_key kv.1 = true) (vp_row p) !! f = None)
      as ->; [| done].
    apply map_lookup_filter_None. right. intros s _. simpl.
    by rewrite (string_path_not_kept f Hf).
Qed.

Lemma string_path_elem (f : string) :
  f ∈ Mongo.string_paths → Mongo.is_string_path f = true.
Proof.
  intros Hin. unfold Mongo.is_string_path. apply existsb_exists.
  exists f. split; [by apply list_elem_of_In | apply String.eqb_refl].
Qed.

Lemma product_field_string_path (p : ValidProduct) (f : string) :
  Mongo.is_string_path f = true →
  product_field p f = VStr <$> vp_row p !! f.
Proof.
  intros Hf. unfold product_field.
  destruct (String.eqb_spec f "mrp") as [-> |]; [discriminate Hf |].
  destruct (String.eqb_spec f "price") as [-> |]; [discriminate Hf |].
  by destruct (String.eqb_spec f "quantity") as [-> |]; [discriminate Hf |].
Qed.

End CastFacts.

(** C3, as stated, fails on [blank_sku_row]: its sku is empty after
    trimming, yet the row is accepted, and the accepted product carries
    the name with its leading blank, not the trimmed name. *)
Lemma required_check_does_not_trim :
  JsString.trim <$> blank_sku_row !! "sku" = Some ""
  ∧ validateRow blank_sku_row = Accepted (Rules.product_of blank_sku_row)
  ∧ product_field (Rules.product_of blank_sku_row) "name" = Some (VStr " Shirt")
  ∧ JsString.trim " Shirt" = "Shirt".
Proof. by vm_compute. Qed.

(** C3, amended. The required-fields check rejects a row with reason
    "Missing required fields." exactly when one of sku, name, brand, mrp,
    price is absent or the empty string; nothing is trimmed for the check.
    On success the non-numeric fields (sku, name, brand, color, size) of
    the Validated Product are the original strings, unchanged; they are
    trimmed when the store casts the update against the schema. *)
Theorem required_check_exact (r : RawRow) :
  (validateRow r = Rejected MissingRequired ↔
     ∃ f, f ∈ Rules.required_fields ∧ (r !! f = None ∨ r !! f = Some ""))
  ∧ reason_text MissingRequired = "Missing required fields."
  ∧ ∀ p, validateRow r = Accepted p →
      ∀ f, f ∈ ["sku"; "name"; "brand"; "color"; "size"] →
        product_field p f = VStr <$> r !! f
        ∧ Mongo.castUpdate p !! f = (λ s, VStr (JsString.trim s)) <$> r !! f.
Proof.
  split; [| split; [done |]].
  - rewrite validateRow_missing. apply missing_required_spec.
  - intros p Hp f Hf. apply validateRow_accepted in Hp. subst p.
    apply string_path_elem in Hf. split.
    + by rewrite product_field_string_path.
    + by rewrite castUpdate_string_path.
Qed.

(** ** Numeric format *)

Lemma parseQuantity_quantity_number (r : RawRow) :
  parseQuantity (r !! "quantity") = quantity_number r.
Proof.
  unfold parseQuantity, quantity_number, JsString.truthy.
  destruct (r !! "quantity") as [s |]; [| done].
  by destruct (string_dec s "").
Qed.

Lemma isNaN_true (x : JsNumber.t) : JsNumber.isNaN x = true ↔ x = JsNumber.NaN.
Proof. by destruct x. Qed.

Lemma isNaNInt_true (x : option Z) : JsNumber.isNaNInt x = true ↔ x = None.
Proof. by destruct x. Qed.

(** C4, as stated, fails on [infinite_mrp_row]: it passes the
    required-fields check, its mrp parses to an infinite value, and it is
    not rejected: the validator accepts it with an infinite mrp. *)
Lemma infinite_mrp_is_accepted :
  Rules.missing_required infinite_mrp_row = false
  ∧ parseFloatV (infinite_mrp_row !! "mrp") = JsNumber.PosInf
  ∧ validateRow infinite_mrp_row = Accepted (Rules.product_of infinite_mrp_row)
  ∧ vp_mrp (Rules.product_of infinite_mrp_row) = JsNumber.PosInf.
Proof. by vm_compute. Qed.

(** C4, amended. For every Raw Row passing the required-fields check, the
    numeric-format check rejects the row with reason "Invalid number
    format for MRP, Price, or Quantity." exactly when [parseFloat] of mrp
    or of price is NaN, or [parseInt] of quantity (taken as 0 when absent
    or empty) is NaN. The check is [isNaN], not a finiteness test: an mrp
    or price that parses to an infinite value passes it. *)
Theorem numeric_check_exact (r : RawRow) :
  Rules.missing_required r = false →
  (validateRow r = Rejected InvalidNumber ↔
     parseFloatV (r !! "mrp") = JsNumber.NaN
     ∨ parseFloatV (r !! "price") = JsNumber.NaN
     ∨ quantity_number r = None)
  ∧ reason_text InvalidNumber = "Invalid number format for MRP, Price, or Quantity.".
Proof.
  intros Hreq. split; [| done].
  rewrite validateRow_invalid_number. unfold Rules.bad_number.
  rewrite !orb_true_iff, !isNaN_true, isNaNInt_true, parseQuantity_quantity_number.
  tauto.
Qed.

Lemma numeric_check_exact_witness :
  Rules.missing_required infinite_mrp_row = false
  ∧ ((validateRow infinite_mrp_row = Rejected InvalidNumber ↔
        parseFloatV (infinite_mrp_row !! "mrp") = JsNumber.NaN
        ∨ parseFloatV (infinite_mrp_row !! "price") = JsNumber.NaN
        ∨ quantity_number infinite_mrp_row = None)
     ∧ reason_text InvalidNumber
       = "Invalid number format for MRP, Price, or Quantity.").
Proof.
  split; [by vm_compute |].
  apply (numeric_check_exact infinite_mrp_row). by vm_compute.
Defined.

(** ** The four rules in their order *)

Section RuleFacts.

Lemma empty_truthy (v : option string) :
  Checks.empty v = negb (JsString.truthy v).
Proof.
  destruct v as [s |]; [| done]. simpl. by destruct (string_dec s "").
Qed.

Lemma checks_missing_required (r : RawRow) :
  Checks.missing_required r = Rules.missing_required r.
Proof.
  unfold Checks.missing_required, Rules.missing_required, Rules.required_fields.
  simpl. by rewrite !empty_truthy.
Qed.

Lemma checks_bad_number (r : RawRow) :
  Checks.bad_number r = Rules.bad_number r.
Proof.
  unfold Checks.bad_number, Rules.bad_number.
  rewrite parseQuantity_quantity_number. do 2 f_equal.
  destruct (quantity_number r) as [q |].
  - by rewrite bool_decide_eq_true_2 by (by eexists).
  - by rewrite bool_decide_eq_false_2 by (by intros [? ?]).
Qed.

Lemma checks_negative_quantity (r : RawRow) :
  Checks.negative_quantity r = Rules.negative_quantity r.
Proof.
  unfold Checks.negative_quantity, Rules.negative_quantity.
  by rewrite parseQuantity_quantity_number.
Qed.

Lemma checks_product_of (r : RawRow) : Checks.product_of r = Rules.product_of r.
Proof.
  unfold Checks.product_of, Rules.product_of.
  by rewrite parseQuantity_quantity_number.
Qed.

Lemma checks_first_failure (r : RawRow) :
  Checks.first_failure r = Rules.first_failure r.
Proof.
  unfold Checks.first_failure, Rules.first_failure, Checks.rules, Rules.rules.
  simpl. rewrite checks_missing_required, checks_bad_number,
    checks_negative_quantity.
  change (Checks.price_above_mrp r) with (Rules.price_above_mrp r).
  destruct (Rules.missing_required r); [done |].
  destruct (Rules.bad_number r); [done |].
  destruct (Rules.price_above_mrp r); [done |].
  by destruct (Rules.negative_quantity r).
Qed.

End RuleFacts.

(** C1, as stated, fails on [blank_sku_dear_row]. By the rules in the
    words of section 4.1 the first rule that fails on it is the
    required-fields check, its sku being empty after trimming; the
    validator returns the reason of the price ceiling. *)
Lemma blank_sku_judged_by_later_rule :
  Stated.first_failure blank_sku_dear_row = Some MissingRequired
  ∧ validateRow blank_sku_dear_row = Rejected PriceAboveMrp.
Proof. split; vm_compute; reflexivity. Qed.

(** C1, amended. For every Raw Row the row validator goes through the
    four rules in the fixed order (required fields, numeric format,
    price ceiling, non-negative quantity), the required-fields check on
    the cells as they are (present and not the empty string, nothing
    trimmed) and the numeric-format check for NaN (of [parseFloat] of mrp
    and price and of [parseInt] of the quantity, 0 when absent or empty),
    not for finiteness. It returns the reason of the first rule that
    fails, whatever the later rules would say, and the Validated Product
    when none fails. The handler records this one outcome for the row:
    one rejection with that reason, or one accepted product. *)
Theorem validator_first_failing_rule (r : RawRow) :
  validateRow r = Checks.verdict r
  ∧ ∀ st : UploadState,
      onData st r =
        match Checks.first_failure r with
        | Some why =>
            {| validProducts := validProducts st;
               failedValidation :=
                 failedValidation st
                   ++ [{| row := S (rowCount st); data := r; reason := why |}];
               rowCount := S (rowCount st) |}
        | None =>
            {| validProducts := validProducts st ++ [Checks.product_of r];
               failedValidation := failedValidation st;
               rowCount := S (rowCount st) |}
        end.
Proof.
  assert (validateRow r = Checks.verdict r) as Hv.
  { rewrite validateRow_verdict. unfold Checks.verdict, Rules.verdict.
    by rewrite checks_first_failure, checks_product_of. }
  split; [exact Hv |].
  intros st. unfold onData. rewrite Hv. unfold Checks.verdict.
  by destruct (Checks.first_failure r).
Qed.

(** ** The pipeline: partition of the rows *)

Section PipelineFacts.

Lemma fold_onData (rs : list RawRow) (st : UploadState) :
  fold_left onData rs st =
    {| validProducts := validProducts st ++ accepted rs;
       failedValidation := failedValidation st ++ rejections (rowCount st) rs;
       rowCount := rowCount st + length rs |}.
Proof.
  revert st. induction rs as [| r rs IH]; intros st.
  - destruct st. simpl. by rewrite !app_nil_r, Nat.add_0_r.
  - simpl. rewrite IH. unfold onData, accepted, push. simpl.
    destruct (validateRow r) as [p | why]; simpl.
    + rewrite <- app_assoc. simpl. f_equal. lia.
    + rewrite <- app_assoc. simpl. f_equal. lia.
Qed.

Lemma run_state (rs : list RawRow) :
  run rs = {| validProducts := accepted rs;
              failedValidation := rejections 0 rs;
              rowCount := length rs |}.
Proof. unfold run. by rewrite fold_onData. Qed.

Lemma accepted_app (l1 l2 : list RawRow) :
  accepted (l1 ++ l2) = accepted l1 ++ accepted l2.
Proof. apply omap_app. Qed.

Lemma rejections_app (n : nat) (l1 l2 : list RawRow) :
  rejections n (l1 ++ l2) = rejections n l1 ++ rejections (n + length l1) l2.
Proof.
  revert n. induction l1 as [| r l1 IH]; intros n; simpl.
  - by rewrite Nat.add_0_r.
  - rewrite IH. replace (S n + length l1) with (n + S (length l1)) by lia.
    by destruct (validateRow r).
Qed.

Lemma rejections_length (n : nat) (rs : list RawRow) :
  length (rejections n rs) = length (rejected rs).
Proof.
  revert n. induction rs as [| r rs IH]; intros n; [done |].
  unfold rejected, is_rejected in *. simpl.
  destruct (validateRow r); simpl; by rewrite IH.
Qed.

Lemma elem_of_accepted (p : ValidProduct) (rs : list RawRow) :
  p ∈ accepted rs ↔ ∃ r, r ∈ rs ∧ validateRow r = Accepted p.
Proof.
  unfold accepted. rewrite list_elem_of_omap. split.
  - intros (r & Hr & Hv). exists r. split; [done |].
    destruct (validateRow r); congruence.
  - intros (r & Hr & Hv). exists r. split; [done |]. by rewrite Hv.
Qed.

(** Every record names the row it rejects, by its 1-based ordinal. *)
Lemma rejections_sound (n : nat) (rs : list RawRow) (rej : Rejection) :
  rej ∈ rejections n rs →
  n < row rej ∧ rs !! (row rej - S n) = Some (data rej)
  ∧ validateRow (data rej) = Rejected (reason rej).
Proof.
  revert n. induction rs as [| r rs IH]; intros n; simpl.
  - by intros ?%elem_of_nil.
  - intros Hin.
    assert (rej ∈ rejections (S n) rs →
            n < row rej ∧ (r :: rs) !! (row rej - S n) = Some (data rej)
            ∧ validateRow (data rej) = Rejected (reason rej)) as Hrest.
    { intros Hrej. destruct (IH _ Hrej) as (Hlt & Hlook & Hv).
      split; [lia |]. split; [| done].
      replace (row rej - S n) with (S (row rej - S (S n))) by lia. done. }
    destruct (validateRow r) as [p | why] eqn:Hr; [by apply Hrest |].
    apply elem_of_cons in Hin as [-> | Hin]; [| by apply Hrest].
    simpl. rewrite Nat.sub_diag. simpl. split; [lia | done].
Qed.

(** Every rejected row has its record. *)
Lemma rejections_complete (n i : nat) (rs : list RawRow) (r : RawRow)
    (why : Reason) :
  rs !! i = Some r → validateRow r = Rejected why →
  {| row := S (n + i); data := r; reason := why |} ∈ rejections n rs.
Proof.
  revert n i. induction rs as [| r0 rs IH]; intros n i Hlook Hv; [done |].
  destruct i as [| i]; simpl in *.
  - injection Hlook as ->. rewrite Hv, Nat.add_0_r. apply elem_of_cons. by left.
  - specialize (IH (S n) i Hlook Hv).
    replace (S (n + S i)) with (S (S n + i)) by lia.
    destruct (validateRow r0); [done |]. apply elem_of_cons. by right.
Qed.

Lemma rejections_lower_bound (n : nat) (rs : list RawRow) :
  Forall (λ rej, n < row rej) (rejections n rs).
Proof.
  apply Forall_forall. intros rej Hin.
  by destruct (rejections_sound _ _ _ Hin).
Qed.

(** The ordinals of the records go strictly up. *)
Lemma rejections_ascending (n : nat) (rs : list RawRow) :
  StronglySorted lt (row <$> rejections n rs).
Proof.
  revert n. induction rs as [| r rs IH]; intros n; simpl; [constructor |].
  destruct (validateRow r); [apply IH |].
  simpl. constructor; [apply IH |].
  apply Forall_fmap. apply (rejections_lower_bound (S n) rs).
Qed.

End PipelineFacts.

(** ** The upload, over any store *)

Section UploadAnyStore.
Context {DB : Type} `{CatalogStore DB}.

Lemma operations_products (valid : list ValidProduct) :
  update_set <$> operations_of valid = valid.
Proof.
  unfold operations_of. rewrite <- list_fmap_compose.
  induction valid as [| p valid IH]; [done |].
  simpl. by f_equal.
Qed.

(** Every operation is keyed on the sku of its own product. *)
Lemma operations_keyed (valid : list ValidProduct) (op : WriteOp) :
  op ∈ operations_of valid →
  update_set op ∈ valid ∧ filter_sku op = product_sku (update_set op).
Proof.
  unfold operations_of. intros (p & -> & Hp)%list_elem_of_fmap. by simpl.
Qed.

Lemma onEnd_run (rs : list RawRow) (db : DB) :
  onEnd (run rs) db =
    match accepted rs with
    | [] => (summary_of rs, [], db)
    | _ :: _ =>
        let operations := operations_of (accepted rs) in
        match bulkWrite operations db with
        | (db', None) => (summary_of rs, [operations], db')
        | (db', Some err) =>
            (json 500 (Failure "Error storing Product Details in the database." err),
             [operations], db')
        end
    end.
Proof.
  unfold onEnd, summary_of. rewrite run_state. simpl.
  rewrite rejections_length.
  by destruct (accepted rs).
Qed.

(** C2. For every decoded CSV stream, once the stream is exhausted the
    pipeline issues exactly one batch persistence call if and only if
    the accepted set is non-empty (and none otherwise); the batch
    holds, in order, one operation per accepted product and nothing
    else, so never a row that failed validation; and the summary it
    returns has stored equal to the size of the accepted set and failed
    equal to the size of the rejected set. The only other reply is the
    persistence failure, when the store throws on the batch. *)
Theorem upload_batch_and_summary (rs : list RawRow) (db : DB) :
  let out := uploadProducts (Some {| rows := rs; ending := End |}) db in
  (length (batches out) = 1 ↔ accepted rs ≠ [])
  ∧ (length (batches out) = 0 ↔ accepted rs = [])
  ∧ (∀ batch, batch ∈ batches out →
       batch = operations_of (accepted rs)
       ∧ update_set <$> batch = accepted rs)
  ∧ (∀ batch op, batch ∈ batches out → op ∈ batch →
       ∃ r, r ∈ rs ∧ validateRow r = Accepted (update_set op))
  ∧ (∀ message stored failed details,
       body (reply out) = Summary message stored failed details →
       stored = length (accepted rs) ∧ failed = length (rejected rs))
  ∧ (reply out = summary_of rs
     ∨ ∃ err, (bulkWrite (operations_of (accepted rs)) db).2 = Some err
              ∧ accepted rs ≠ []
              ∧ reply out =
                  json 500 (Failure "Error storing Product Details in the database." err)).
Proof.
  simpl. fold (run rs). rewrite onEnd_run.
  destruct (accepted rs) as [| p ps] eqn:Hacc.
  - unfold batches, reply. simpl. split_and!.
    + done.
    + done.
    + intros batch Hin. by apply elem_of_nil in Hin.
    + intros batch op Hin. by apply elem_of_nil in Hin.
    + unfold summary_of. simpl. rewrite Hacc. by intros ? ? ? ? [= _ <- <-].
    + by left.
  - set (ops := operations_of (p :: ps)).
    assert (∀ batch : list WriteOp, batch ∈ [ops] →
              batch = ops ∧ update_set <$> batch = p :: ps) as Hbatch.
    { intros batch ->%list_elem_of_singleton. split; [done |].
      apply operations_products. }
    assert (∀ (batch : list WriteOp) op, batch ∈ [ops] → op ∈ batch →
              ∃ r, r ∈ rs ∧ validateRow r = Accepted (update_set op)) as Hops.
    { intros batch op ->%list_elem_of_singleton Hop.
      apply operations_keyed in Hop as [Hop _].
      rewrite <- Hacc in Hop. by apply elem_of_accepted. }
    simpl. destruct (bulkWrite ops db) as [db' [err |]] eqn:Hbw;
      unfold batches, reply; simpl.
    + split_and!; try done.
      right. by exists err.
    + split_and!; try done.
      * unfold summary_of. simpl. rewrite Hacc. by intros ? ? ? ? [= _ <- <-].
      * by left.
Qed.

(** C5. For every uploaded file, the rejection records of the summary
    are those the handlers collected; each carries the 1-based ordinal
    (header excluded, first row 1) of the row it rejects, with that row
    and its reason; every rejected row has its record; the ordinals of
    the list go strictly up, in file order; and what is recorded for a
    prefix of the file does not depend on the rows after it. *)
Theorem rejections_carry_ordinals (rs : list RawRow) (db : DB) :
  let out := uploadProducts (Some {| rows := rs; ending := End |}) db in
  let details := failedValidation (run rs) in
  (∀ message stored failed d,
     body (reply out) = Summary message stored failed d → d = details)
  ∧ (∀ rej, rej ∈ details →
       (1 ≤ row rej ≤ length rs)%nat
       ∧ rs !! (row rej - 1) = Some (data rej)
       ∧ validateRow (data rej) = Rejected (reason rej))
  ∧ (∀ i r why, rs !! i = Some r → validateRow r = Rejected why →
       {| row := S i; data := r; reason := why |} ∈ details)
  ∧ StronglySorted lt (row <$> details)
  ∧ (∀ l1 l2, rs = l1 ++ l2 →
       rowCount (run l1) = length l1
       ∧ failedValidation (run rs)
         = failedValidation (run l1) ++ rejections (length l1) l2
       ∧ validProducts (run rs) = validProducts (run l1) ++ accepted l2).
Proof.
  simpl. fold (run rs). rewrite onEnd_run. rewrite (run_state rs). simpl.
  split; [| split; [| split; [| split]]].
  - intros message stored failed d. unfold reply.
    destruct (accepted rs); simpl; [by intros [= _ _ _ <-] |].
    destruct (bulkWrite _ db) as [db' [err |]]; simpl; [done |].
    by intros [= _ _ _ <-].
  - intros rej Hin. destruct (rejections_sound _ _ _ Hin) as (Hlt & Hlook & Hv).
    split; [| done]. split; [lia |].
    apply lookup_lt_Some in Hlook. lia.
  - intros i r why Hlook Hv. apply (rejections_complete 0 i rs r why Hlook Hv).
  - apply rejections_ascending.
  - intros l1 l2 ->. rewrite (run_state l1). simpl.
    split; [done |]. split; [apply rejections_app | apply accepted_app].
Qed.

End UploadAnyStore.

(** ** Patterns of ordinary characters *)

Section RegexFacts.
Import Criteria.

Lemma append_nil (s : string) : "" +:+ s = s.
Proof. reflexivity. Qed.

Lemma append_cons (a : ascii) (r s : string) :
  String a r +:+ s = String a (r +:+ s).
Proof. reflexivity. Qed.

Lemma is_meta_dot : Regex.is_meta "." = true.
Proof. reflexivity. Qed.

Lemma compile_plain (s : string) :
  plain s = true → Regex.compile s = Some (literal s).
Proof.
  induction s as [| a r IH]; [done |]. simpl.
  intros [Ha Hr]%andb_true_iff. apply negb_true_iff in Ha.
  destruct (Ascii.eqb_spec a ".") as [-> |].
  - by rewrite is_meta_dot in Ha.
  - rewrite Ha, (IH Hr). done.
Qed.

Lemma eqb_ci_lower (a b : ascii) :
  JsString.eqb_ci a b = true ↔ JsString.lower a = JsString.lower b.
Proof. unfold JsString.eqb_ci. apply Ascii.eqb_eq. Qed.

(** The literal items match at the front exactly when the text starts
    with the needle, up to case. *)
Lemma match_here_literal (needle s : string) :
  Regex.match_here (literal needle) s = true ↔
  ∃ mid post, s = mid +:+ post ∧ lower_string mid = lower_string needle.
Proof.
  revert s. induction needle as [| a r IH]; intros s;
    cbn [literal Regex.match_here lower_string].
  - split; [| done]. intros _. by exists "", s.
  - destruct s as [| b s'].
    + split; [done |]. intros (mid & post & Hs & Hl).
      destruct mid; [discriminate Hl | discriminate Hs].
    + rewrite andb_true_iff, eqb_ci_lower, IH. split.
      * intros (Hab & mid & post & -> & Hl).
        exists (String b mid), post. split; [done |].
        cbn [lower_string]. by rewrite Hab, Hl.
      * intros (mid & post & Hs & Hl).
        destruct mid as [| b' mid]; cbn [lower_string] in Hl; [done |].
        rewrite append_cons in Hs. injection Hs as -> ->.
        injection Hl as Hab Hl.
        split; [done |]. by exists mid, post.
Qed.

Lemma search_somewhere (items : list Regex.Item) (s : string) :
  Regex.search items s = true ↔
  ∃ pre rest, s = pre +:+ rest ∧ Regex.match_here items rest = true.
Proof.
  induction s as [| b s' IH].
  - cbn [Regex.search]. rewrite orb_false_r. split.
    + intros Hm. by exists "", "".
    + intros (pre & rest & Hs & Hm).
      destruct pre; [| discriminate Hs].
      rewrite append_nil in Hs. by subst rest.
  - cbn [Regex.search]. rewrite orb_true_iff, IH. split.
    + intros [Hm | (pre & rest & -> & Hm)].
      * by exists "", (String b s').
      * by exists (String b pre), rest.
    + intros (pre & rest & Hs & Hm).
      destruct pre as [| b' pre].
      * left. rewrite append_nil in Hs. by subst rest.
      * right. rewrite append_cons in Hs. injection Hs as -> ->.
        by exists pre, rest.
Qed.

(** A pattern of ordinary characters is a substring test. *)
Lemma search_literal (needle hay : string) :
  Regex.search (literal needle) hay = true ↔ contains_ci needle hay.
Proof.
  rewrite search_somewhere. unfold contains_ci. split.
  - intros (pre & rest & -> & (mid & post & -> & Hl)%match_here_literal).
    by exists pre, mid, post.
  - intros (pre & mid & post & -> & Hl).
    exists pre, (mid +:+ post). split; [done |].
    apply match_here_literal. by exists mid, post.
Qed.

End RegexFacts.

(** ** Listing and search on the store model *)

Section QueryFacts.
Import Criteria.

Lemma parseIntOr_requested (param : option string) (default value : Z) :
  (1 ≤ default)%Z → requested param default value →
  parseIntOr param default = value ∧ (1 ≤ value)%Z.
Proof.
  intros Hd [[-> ->] | (s & -> & Hs & Hv)]; unfold parseIntOr; simpl.
  - done.
  - rewrite Hs. destruct (Z.eqb_spec value 0); [lia | done].
Qed.

Lemma ceilDiv_bounds (total limit : Z) :
  (0 < limit)%Z →
  ((ceilDiv total limit - 1) * limit < total ≤ ceilDiv total limit * limit)%Z.
Proof.
  intros Hl. unfold ceilDiv.
  pose proof (Z.div_mod (- total) limit ltac:(lia)) as Hdm.
  pose proof (Z.mod_pos_bound (- total) limit Hl) as Hm.
  nia.
Qed.

Lemma filter_all {A : Type} (l : list A) : List.filter (λ _, true) l = l.
Proof. induction l; simpl; congruence. Qed.

Lemma find_page (skip limit : Z) (c : list Doc) :
  (0 ≤ skip)%Z → (1 ≤ limit)%Z →
  Mongo.find noFilter (Some skip) (Some limit) c
  = Some (Done (take (Z.to_nat limit) (drop (Z.to_nat skip) c))).
Proof.
  intros Hs Hl. unfold Mongo.find, noFilter, Mongo.page_of. simpl.
  rewrite filter_all.
  destruct (Z.ltb_spec skip 0); [lia |].
  destruct (Z.eqb_spec limit 0); [lia |].
  by rewrite Z.abs_eq by lia.
Qed.

Lemma truthy_true (v : option string) :
  JsString.truthy v = true ↔ ∃ s, v = Some s ∧ s ≠ "".
Proof.
  destruct v as [s |]; simpl.
  - destruct (string_dec s ""); split; try done.
    + intros (s' & [= <-] & Hne). done.
    + intros _. by exists s.
  - split; [done |]. by intros (s & ? & _).
Qed.

Lemma compile_field_plain (v : option string) :
  plain_param v = true → Mongo.compile_field (regexOf v) = Some (items_of v).
Proof.
  unfold items_of, regexOf. destruct (JsString.truthy v); [| done].
  destruct v as [s |]; [| done]. simpl. intros Hs.
  by rewrite (compile_plain s Hs).
Qed.

Lemma field_matches_text_ok (v : option string) (field : option JsValue) :
  Mongo.field_matches (items_of v) field = true ↔ text_ok v field.
Proof.
  unfold items_of, regexOf, text_ok.
  destruct (JsString.truthy v) eqn:Hv.
  - apply truthy_true in Hv as (s & -> & Hne). simpl.
    destruct field as [[t | x] |].
    + rewrite search_literal. split.
      * intros Hc s' [= <-] _. by exists t.
      * intros Hok. by destruct (Hok s eq_refl Hne) as (t' & [= <-] & Hc).
    + split; [done |]. intros Hok.
      by destruct (Hok s eq_refl Hne) as (t' & ? & _).
    + split; [done |]. intros Hok.
      by destruct (Hok s eq_refl Hne) as (t' & ? & _).
  - simpl. split; [| done]. intros _ s -> Hne.
    assert (JsString.truthy (Some s) = true) as Ht
      by (apply truthy_true; by exists s).
    congruence.
Qed.

Lemma above_min_ok (v : option string) (x : JsNumber.t) :
  Mongo.above (boundOf v) x = true ↔ min_ok v (Some (VNum x)).
Proof.
  unfold boundOf, min_ok. destruct (JsString.truthy v) eqn:Hv.
  - apply truthy_true in Hv as (s & -> & Hne). simpl. split.
    + intros Hle s' [= <-] _. by exists x.
    + intros Hok. by destruct (Hok s eq_refl Hne) as (x' & [= <-] & Hle).
  - simpl. split; [| done]. intros _ s -> Hne.
    assert (JsString.truthy (Some s) = true) as Ht
      by (apply truthy_true; by exists s).
    congruence.
Qed.

Lemma below_max_ok (v : option string) (x : JsNumber.t) :
  Mongo.below (boundOf v) x = true ↔ max_ok v (Some (VNum x)).
Proof.
  unfold boundOf, max_ok. destruct (JsString.truthy v) eqn:Hv.
  - apply truthy_true in Hv as (s & -> & Hne). simpl. split.
    + intros Hle s' [= <-] _. by exists x.
    + intros Hok. by destruct (Hok s eq_refl Hne) as (x' & [= <-] & Hle).
  - simpl. split; [| done]. intros _ s -> Hne.
    assert (JsString.truthy (Some s) = true) as Ht
      by (apply truthy_true; by exists s).
    congruence.
Qed.

Lemma price_matches_ok (q : SearchQuery) (field : option JsValue) :
  Mongo.price_matches (filter_price (buildFilter q)) field = true ↔
  min_ok (q_minPrice q) field ∧ max_ok (q_maxPrice q) field.
Proof.
  unfold buildFilter. simpl.
  destruct (JsString.truthy (q_minPrice q) || JsString.truthy (q_maxPrice q))
    eqn:Hany; simpl.
  - destruct field as [[t | x] |].
    + split; [done |]. intros [Hmin Hmax].
      apply orb_true_iff in Hany
        as [(s & Hs & Hne)%truthy_true | (s & Hs & Hne)%truthy_true].
      * by destruct (Hmin s Hs Hne) as (x & ? & _).
      * by destruct (Hmax s Hs Hne) as (x & ? & _).
    + by rewrite andb_true_iff, above_min_ok, below_max_ok.
    + split; [done |]. intros [Hmin Hmax].
      apply orb_true_iff in Hany
        as [(s & Hs & Hne)%truthy_true | (s & Hs & Hne)%truthy_true].
      * by destruct (Hmin s Hs Hne) as (x & ? & _).
      * by destruct (Hmax s Hs Hne) as (x & ? & _).
  - apply orb_false_iff in Hany as [Hmin Hmax]. split; [| done].
    intros _. split; intros s Hs Hne.
    + assert (JsString.truthy (q_minPrice q) = true) as Ht
        by (apply truthy_true; by exists s).
      congruence.
    + assert (JsString.truthy (q_maxPrice q) = true) as Ht
        by (apply truthy_true; by exists s).
      congruence.
Qed.

Lemma bound_number (v : option string) :
  number_param v = true → Mongo.bound_is_NaN (boundOf v) = false.
Proof.
  unfold number_param, boundOf, JsString.truthy.
  destruct v as [s |]; [| done].
  destruct (string_dec s ""); [done |]. simpl. by intros ->%negb_true_iff.
Qed.

Lemma cast_succeeds (q : SearchQuery) :
  number_param (q_minPrice q) = true → number_param (q_maxPrice q) = true →
  Mongo.cast_fails (filter_price (buildFilter q)) = false.
Proof.
  intros Hmin Hmax. unfold buildFilter. simpl.
  destruct (_ || _); [| done]. simpl.
  by rewrite (bound_number _ Hmin), (bound_number _ Hmax).
Qed.

Lemma keep_satisfies (q : SearchQuery) (d : Doc) :
  keep q d = true ↔ satisfies q d.
Proof.
  unfold keep, satisfies.
  rewrite !andb_true_iff, !field_matches_text_ok, price_matches_ok. tauto.
Qed.

Lemma find_well_formed (q : SearchQuery) (c : list Doc) :
  well_formed q = true →
  Mongo.find (buildFilter q) None None c = Some (Done (List.filter (keep q) c)).
Proof.
  unfold well_formed. rewrite !andb_true_iff.
  intros ((((Hn & Hb) & Hc) & Hmin) & Hmax).
  unfold Mongo.find.
  change (filter_name (buildFilter q)) with (regexOf (q_name q)).
  change (filter_brand (buildFilter q)) with (regexOf (q_brand q)).
  change (filter_color (buildFilter q)) with (regexOf (q_color q)).
  rewrite (compile_field_plain _ Hn), (compile_field_plain _ Hb),
    (compile_field_plain _ Hc).
  cbn [mbind option_bind].
  by rewrite (cast_succeeds q Hmin Hmax).
Qed.

End QueryFacts.

Module SearchExamples.

Example by_brand :
  filterProducts
    {| q_name := None; q_brand := Some "streamthreads"; q_color := None;
       q_minPrice := None; q_maxPrice := None |} search_fixture
  = Some (json 200 (Products
      [ entry "A-001" "Red T-Shirt" "StreamThreads" "Red" 500 800 10;
        entry "C-003" "Green Polo" "StreamThreads" "Green" 1200 1500 8 ])).
Proof. by vm_compute. Qed.

Example by_min_price :
  filterProducts
    {| q_name := None; q_brand := None; q_color := None;
       q_minPrice := Some "2000"; q_maxPrice := None |} search_fixture
  = Some (json 200 (Products
      [ entry "D-004" "Black Jacket" "UrbanEdge" "Black" 3000 4000 3;
        entry "E-005" "Red Sneakers" "UrbanEdge" "Red" 2500 3000 7 ])).
Proof. by vm_compute. Qed.

Example no_such_brand :
  filterProducts
    {| q_name := None; q_brand := Some "NonExistentBrand"; q_color := None;
       q_minPrice := None; q_maxPrice := None |} search_fixture
  = Some (json 404 (Message "No products found matching required criteria.")).
Proof. by vm_compute. Qed.

(** The text "0" is a non-empty string, so the bound is applied. *)
Example bound_zero_constrains :
  filterProducts
    {| q_name := None; q_brand := None; q_color := None;
       q_minPrice := Some "0"; q_maxPrice := None |}
    [ entry "N-001" "Refund" "Acme" "Red" (-5) 10 1;
      entry "P-001" "Shirt" "Acme" "Red" 5 10 1 ]
  = Some (json 200 (Products [entry "P-001" "Shirt" "Acme" "Red" 5 10 1])).
Proof. by vm_compute. Qed.

End SearchExamples.

Lemma getAllProducts_on_store (c : list Doc) (page_q limit_q : option string)
    (page limit : Z) :
  requested page_q 1 page → requested limit_q 10 limit →
  (1 ≤ page)%Z ∧ (1 ≤ limit)%Z
  ∧ getAllProducts page_q limit_q c
    = Some (json 200 (Page (length c) (ceilDiv (Z.of_nat (length c)) limit) page
                        (take (Z.to_nat limit)
                           (drop (Z.to_nat ((page - 1) * limit)) c)))).
Proof.
  intros Hp Hl.
  apply (parseIntOr_requested _ 1 page ltac:(lia)) in Hp as [Hp Hp1].
  apply (parseIntOr_requested _ 10 limit ltac:(lia)) in Hl as [Hl Hl1].
  split; [done |]. split; [done |].
  unfold getAllProducts. rewrite Hp, Hl. cbn [find Mongo.store].
  rewrite find_page by nia.
  by cbn [countDocuments Mongo.store Mongo.countDocuments].
Qed.

(** C7. For every page and limit that are at least 1 (1 and 10 when
    absent), the listing returns status 200 with the slice of catalog
    entries at offset (page-1)*limit, of size at most limit, in storage
    order, together with the total entry count and a total page count
    equal to ceil(total/limit). *)
Theorem listing_returns_page (c : list Doc) (page_q limit_q : option string)
    (page limit : Z) :
  requested page_q 1 page → requested limit_q 10 limit →
  ∃ products pages,
    getAllProducts page_q limit_q c
    = Some (json 200 (Page (length c) pages page products))
    ∧ products = take (Z.to_nat limit) (drop (Z.to_nat ((page - 1) * limit)) c)
    ∧ (length products ≤ Z.to_nat limit)%nat
    ∧ (∀ i, (i < Z.to_nat limit)%nat →
            products !! i = c !! (Z.to_nat ((page - 1) * limit) + i)%nat)
    ∧ ((pages - 1) * limit < Z.of_nat (length c) ≤ pages * limit)%Z.
Proof.
  intros Hp Hl.
  destruct (getAllProducts_on_store c page_q limit_q page limit Hp Hl)
    as (Hp1 & Hl1 & Hget).
  eexists _, (ceilDiv (Z.of_nat (length c)) limit).
  split; [exact Hget |]. split; [reflexivity |]. split_and!.
  - rewrite length_take. lia.
  - intros i Hi. rewrite lookup_take_lt by done. by rewrite lookup_drop.
  - apply ceilDiv_bounds. lia.
  - apply ceilDiv_bounds. lia.
Qed.

Lemma listing_returns_page_witness :
  requested (Some "2") 1 2 ∧ requested (Some "5") 10 5
  ∧ ∃ products pages,
      getAllProducts (Some "2") (Some "5") listing_fixture
      = Some (json 200 (Page (length listing_fixture) pages 2 products))
      ∧ products = take (Z.to_nat 5) (drop (Z.to_nat ((2 - 1) * 5)) listing_fixture)
      ∧ (length products ≤ Z.to_nat 5)%nat
      ∧ (∀ i, (i < Z.to_nat 5)%nat →
              products !! i = listing_fixture !! (Z.to_nat ((2 - 1) * 5) + i)%nat)
      ∧ ((pages - 1) * 5 < Z.of_nat (length listing_fixture) ≤ pages * 5)%Z.
Proof.
  assert (requested (Some "2") 1 2) as H2.
  { right. exists "2". split_and!; [reflexivity | reflexivity | lia]. }
  assert (requested (Some "5") 10 5) as H5.
  { right. exists "5". split_and!; [reflexivity | reflexivity | lia]. }
  split; [exact H2 |]. split; [exact H5 |].
  exact (listing_returns_page listing_fixture (Some "2") (Some "5") 2 5 H2 H5).
Defined.

(** C8, as stated, fails for [dot_brand_query]: the search returns an
    entry whose brand, "Acme", does not contain the provided brand "."
    as a substring; the parameter is used as a regular expression, in
    which [.] stands for any character. *)
Lemma search_parameter_is_a_pattern :
  filterProducts dot_brand_query [acme_entry]
  = Some (json 200 (Products [acme_entry]))
  ∧ ¬ Criteria.satisfies dot_brand_query acme_entry.
Proof.
  split; [by vm_compute |].
  intros (_ & Hbrand & _).
  destruct (Hbrand "." eq_refl ltac:(done)) as (t & Ht & Hc).
  vm_compute in Ht. injection Ht as <-.
  apply search_literal in Hc. by vm_compute in Hc.
Qed.

(** C8, amended. For every combination of provided (present and
    non-empty) filter parameters in which brand, name and color contain
    no regular-expression metacharacter and minPrice and maxPrice parse
    to numbers, the search returns exactly the catalog entries that
    satisfy every provided criterion, in storage order: brand, name and
    color as case-insensitive substring matches, minPrice and maxPrice as
    inclusive lower and upper bounds on price (a provided bound of 0
    constrains the result like any other), with no pagination applied;
    when no entry qualifies the reply is the 404 message. Brand, name and
    color are handed to the store as regular expressions, so outside this
    range they are patterns and not substrings. *)
Theorem search_returns_matching (q : SearchQuery) (c : list Doc) :
  Criteria.well_formed q = true →
  ∃ products,
    Mongo.find (buildFilter q) None None c = Some (Done products)
    ∧ products = List.filter (keep q) c
    ∧ (∀ d, keep q d = true ↔ Criteria.satisfies q d)
    ∧ (∀ d, d ∈ products ↔ d ∈ c ∧ Criteria.satisfies q d)
    ∧ filterProducts q c =
        Some (match products with
              | [] => json 404 (Message "No products found matching required criteria.")
              | _ :: _ => json 200 (Products products)
              end).
Proof.
  intros Hq. exists (List.filter (keep q) c).
  pose proof (find_well_formed q c Hq) as Hfind.
  split_and!.
  - exact Hfind.
  - reflexivity.
  - intros d. apply keep_satisfies.
  - intros d. rewrite list_elem_of_In, filter_In, <- list_elem_of_In, keep_satisfies.
    tauto.
  - unfold filterProducts. cbn [find Mongo.store]. rewrite Hfind.
    by destruct (List.filter (keep q) c).
Qed.

Lemma search_returns_matching_witness :
  Criteria.well_formed combined_query = true
  ∧ ∃ products,
      Mongo.find (buildFilter combined_query) None None search_fixture
      = Some (Done products)
      ∧ products = List.filter (keep combined_query) search_fixture
      ∧ (∀ d, keep combined_query d = true ↔ Criteria.satisfies combined_query d)
      ∧ (∀ d, d ∈ products ↔ d ∈ search_fixture ∧ Criteria.satisfies combined_query d)
      ∧ filterProducts combined_query search_fixture =
          Some (match products with
                | [] => json 404 (Message "No products found matching required criteria.")
                | _ :: _ => json 200 (Products products)
                end).
Proof.
  split; [by vm_compute |].
  apply (search_returns_matching combined_query search_fixture). by vm_compute.
Defined.

(** C9. A search whose filter matches no entries yields the "not found"
    outcome, status 404 with a message, while listing an empty catalog
    (page and limit within the listing contract) yields the normal
    success outcome, status 200 with totalProducts 0 and an empty
    products array; the two replies differ, in status and in body. *)
Theorem empty_results_distinguishable (q : SearchQuery) (c : list Doc)
    (page_q limit_q : option string) (page limit : Z) :
  Mongo.find (buildFilter q) None None c = Some (Done []) →
  requested page_q 1 page → requested limit_q 10 limit →
  ∃ not_found listing,
    filterProducts q c = Some not_found
    ∧ getAllProducts page_q limit_q ([] : list Doc) = Some listing
    ∧ not_found = json 404 (Message "No products found matching required criteria.")
    ∧ listing = json 200 (Page 0 0 page [])
    ∧ status not_found ≠ status listing
    ∧ body not_found ≠ body listing.
Proof.
  intros Hfind Hp Hl.
  destruct (getAllProducts_on_store [] page_q limit_q page limit Hp Hl)
    as (_ & Hl1 & Hlist).
  rewrite drop_nil, take_nil in Hlist.
  change (ceilDiv (Z.of_nat (length ([] : list Doc))) limit)
    with (- (0 / limit))%Z in Hlist.
  rewrite Z.div_0_l in Hlist by lia.
  eexists _, _. split_and!.
  - unfold filterProducts. cbn [find Mongo.store]. by rewrite Hfind.
  - exact Hlist.
  - reflexivity.
  - reflexivity.
  - done.
  - done.
Qed.

Lemma empty_results_distinguishable_witness :
  Mongo.find (buildFilter absent_brand_query) None None search_fixture
  = Some (Done [])
  ∧ requested None 1 1 ∧ requested None 10 10
  ∧ ∃ not_found listing,
      filterProducts absent_brand_query search_fixture = Some not_found
      ∧ getAllProducts None None ([] : list Doc) = Some listing
      ∧ not_found = json 404 (Message "No products found matching required criteria.")
      ∧ listing = json 200 (Page 0 0 1 [])
      ∧ status not_found ≠ status listing
      ∧ body not_found ≠ body listing.
Proof.
  assert (requested None 1 1) as H1 by (by left).
  assert (requested None 10 10) as H10 by (by left).
  assert (Mongo.find (buildFilter absent_brand_query) None None search_fixture
          = Some (Done [])) as Hfind by (by vm_compute).
  split; [exact Hfind |]. split; [exact H1 |]. split; [exact H10 |].
  exact (empty_results_distinguishable absent_brand_query search_fixture
           None None 1 10 Hfind H1 H10).
Defined.

(** ** Upserts keyed on sku *)

Section UpsertFacts.
Import Upsert.

Lemma sku_key_layer (k : string) (set d : Doc) :
  consistent (k, set) → Mongo.sku_key (layer k set d) = Mongo.sku_key d.
Proof.
  unfold consistent, layer, Mongo.has_sku, Mongo.sku_key. simpl. intros Hset.
  case_bool_decide as Hd; [| done].
  rewrite Hd. by apply lookup_union_Some_l.
Qed.

Lemma keys_layer (k : string) (set : Doc) (c : list Doc) :
  consistent (k, set) →
  Mongo.sku_key <$> (layer k set <$> c) = Mongo.sku_key <$> c.
Proof.
  intros Hset. rewrite <- list_fmap_compose. apply list_fmap_ext.
  intros i d _. simpl. by apply sku_key_layer.
Qed.

Lemma present_layer (k k' : string) (set : Doc) (c : list Doc) :
  consistent (k, set) → present k' (layer k set <$> c) = present k' c.
Proof. intros Hset. unfold present. by rewrite keys_layer. Qed.

Lemma has_sku_base (k k' : string) :
  Mongo.has_sku k (base k') = bool_decide (k' = k).
Proof.
  unfold Mongo.has_sku, Mongo.sku_key, base. rewrite lookup_singleton_eq.
  apply bool_decide_ext. split; [by intros [= ->] | by intros ->].
Qed.

Lemma layer_base_ne (k k' : string) (set : Doc) :
  k' ≠ k → layer k set (base k') = base k'.
Proof.
  intros Hne. unfold layer. rewrite has_sku_base.
  by rewrite bool_decide_eq_false_2.
Qed.

Lemma present_has_sku (k : string) (c : list Doc) :
  present k c = true ↔ ∃ d, d ∈ c ∧ Mongo.has_sku k d = true.
Proof.
  unfold present, Mongo.has_sku. rewrite bool_decide_eq_true, list_elem_of_fmap.
  split.
  - intros (d & Hd & Hin). exists d. split; [done |]. by apply bool_decide_eq_true.
  - intros (d & Hin & Hd). exists d. split; [| done].
    by apply bool_decide_eq_true in Hd.
Qed.

Lemma present_app (k : string) (c1 c2 : list Doc) :
  present k (c1 ++ c2) = present k c1 || present k c2.
Proof.
  unfold present. rewrite fmap_app.
  apply eq_true_iff_eq. rewrite orb_true_iff, !bool_decide_eq_true, elem_of_app.
  done.
Qed.

Lemma present_base (k k' : string) : present k [base k'] = bool_decide (k' = k).
Proof.
  apply eq_true_iff_eq. rewrite present_has_sku, bool_decide_eq_true. split.
  - intros (d & ->%list_elem_of_singleton & Hd).
    rewrite has_sku_base in Hd. by apply bool_decide_eq_true in Hd.
  - intros ->. exists (base k). split; [by apply list_elem_of_singleton |].
    rewrite has_sku_base. by apply bool_decide_eq_true.
Qed.

Lemma present_ensure (k k' : string) (c : list Doc) :
  present k (ensure k' c) = present k c || bool_decide (k' = k).
Proof.
  unfold ensure. destruct (present k' c) eqn:Hk'.
  - destruct (decide (k' = k)) as [-> |].
    + by rewrite Hk'.
    + by rewrite bool_decide_eq_false_2, orb_false_r.
  - by rewrite present_app, present_base.
Qed.

Lemma ensure_present (k : string) (c : list Doc) :
  present k c = true → ensure k c = c.
Proof. unfold ensure. by intros ->. Qed.

Lemma ensure_layer_comm (k k' : string) (set : Doc) (c : list Doc) :
  consistent (k, set) → present k c = true →
  ensure k' (layer k set <$> c) = layer k set <$> ensure k' c.
Proof.
  intros Hset Hk. unfold ensure. rewrite present_layer by done.
  destruct (present k' c) eqn:Hk'; [done |].
  rewrite fmap_app. simpl. rewrite layer_base_ne; [done |].
  intros ->. congruence.
Qed.

Lemma ensure_all_layer_comm (kops : list (string * Doc)) (k : string)
    (set : Doc) (c : list Doc) :
  consistent (k, set) → present k c = true →
  ensure_all kops (layer k set <$> c) = layer k set <$> ensure_all kops c.
Proof.
  intros Hset. revert c. induction kops as [| ko kops IH]; intros c Hk; [done |].
  simpl. rewrite ensure_layer_comm by done. apply IH.
  rewrite present_ensure, Hk. done.
Qed.

Lemma run_layers (kops : list (string * Doc)) (c : list Doc) :
  Forall consistent kops →
  run kops c = layers kops <$> ensure_all kops c.
Proof.
  intros Hall. revert c. induction Hall as [| [k set] kops Hko Hall IH]; intros c.
  - simpl. by rewrite list_fmap_id.
  - unfold run, apply in *. simpl. rewrite IH.
    rewrite ensure_all_layer_comm; [| done |].
    + rewrite <- list_fmap_compose. done.
    + rewrite present_ensure. rewrite bool_decide_eq_true_2 by done.
      apply orb_true_r.
Qed.

Lemma layers_snoc (kops : list (string * Doc)) (ko : string * Doc) (d : Doc) :
  layers (kops ++ [ko]) d = layer ko.1 ko.2 (layers kops d).
Proof. unfold layers. by rewrite fold_left_app. Qed.

Lemma merged_snoc (kops : list (string * Doc)) (ko : string * Doc) (d : Doc) :
  merged (kops ++ [ko]) d =
    if Mongo.has_sku ko.1 d then ko.2 ∪ merged kops d else merged kops d.
Proof. unfold merged. by rewrite fold_left_app. Qed.

Lemma has_sku_key (k : string) (d d' : Doc) :
  Mongo.sku_key d = Mongo.sku_key d' → Mongo.has_sku k d = Mongo.has_sku k d'.
Proof. unfold Mongo.has_sku. by intros ->. Qed.

Lemma layers_merged (kops : list (string * Doc)) (d : Doc) :
  Forall consistent kops →
  layers kops d = merged kops d ∪ d
  ∧ Mongo.sku_key (layers kops d) = Mongo.sku_key d.
Proof.
  induction kops as [| [k set] kops IH] using rev_ind; intros Hall.
  - unfold layers, merged. simpl. by rewrite (left_id_L ∅ (∪)).
  - apply Forall_app in Hall as [Hall Hko].
    apply Forall_inv in Hko.
    destruct (IH Hall) as [Hl Hk].
    rewrite layers_snoc, merged_snoc. simpl. split.
    + unfold layer. rewrite (has_sku_key k _ d Hk).
      destruct (Mongo.has_sku k d); [| done].
      by rewrite Hl, (assoc_L (∪)).
    + by rewrite sku_key_layer.
Qed.




Lemma present_ensure_all_mono (kops : list (string * Doc)) (k : string)
    (c : list Doc) :
  present k c = true → present k (ensure_all kops c) = true.
Proof.
  revert c. induction kops as [| ko kops IH]; intros c Hk; [done |].
  simpl. apply IH. by rewrite present_ensure, Hk.
Qed.

Lemma present_ensure_all (kops : list (string * Doc)) (ko : string * Doc)
    (c : list Doc) :
  ko ∈ kops → present ko.1 (ensure_all kops c) = true.
Proof.
  revert c. induction kops as [| ko' kops IH]; intros c Hin.
  - by apply elem_of_nil in Hin.
  - simpl. apply elem_of_cons in Hin as [<- | Hin]; [| by apply IH].
    apply present_ensure_all_mono. rewrite present_ensure.
    rewrite bool_decide_eq_true_2 by done. apply orb_true_r.
Qed.



Lemma unique_ensure (k : string) (c : list Doc) :
  unique_skus c → unique_skus (ensure k c).
Proof.
  unfold unique_skus, ensure. intros Hc.
  destruct (present k c) eqn:Hk; [done |].
  rewrite fmap_app. apply NoDup_app. split; [done |]. split.
  - intros x Hx ->%list_elem_of_singleton.
    unfold present in Hk. apply bool_decide_eq_false in Hk. apply Hk.
    unfold Mongo.sku_key at 1 in Hx. unfold base in Hx.
    by rewrite lookup_singleton_eq in Hx.
  - apply NoDup_singleton.
Qed.

Lemma unique_apply (c : list Doc) (ko : string * Doc) :
  consistent ko → unique_skus c → unique_skus (apply c ko).
Proof.
  destruct ko as [k set]. intros Hko Hc. unfold unique_skus, apply. simpl.
  rewrite keys_layer by done. by apply unique_ensure.
Qed.

Lemma unique_run (kops : list (string * Doc)) (c : list Doc) :
  Forall consistent kops → unique_skus c → unique_skus (run kops c).
Proof.
  intros Hall. revert c. induction Hall as [| ko kops Hko Hall IH]; intros c Hc.
  - done.
  - simpl. apply IH. by apply unique_apply.
Qed.

End UpsertFacts.

(** ** The store model on the batches of the pipeline *)

Section StoreFacts.
Import Upsert.

Lemma keyed_consistent (op : WriteOp) : keyed op → consistent (kop op).
Proof.
  intros (k0 & Hf & Hp). unfold consistent, kop. simpl. rewrite Hf. simpl.
  rewrite castUpdate_string_path by done.
  unfold product_sku in Hp. by rewrite Hp.
Qed.

Lemma not_elem_of_delete {A : Type} (l : list A) (i : nat) (x : A) :
  NoDup l → l !! i = Some x → x ∉ delete i l.
Proof.
  intros Hnd Hi (j & Hj)%list_elem_of_lookup.
  destruct (decide (j < i)) as [Hlt | Hge].
  - rewrite list_lookup_delete_lt in Hj by done.
    pose proof (NoDup_lookup l i j x Hnd Hi Hj). lia.
  - rewrite list_lookup_delete_ge in Hj by lia.
    pose proof (NoDup_lookup l i (S j) x Hnd Hi Hj). lia.
Qed.

(** With unique skus, the one document under a sku is the only one the
    layer touches. *)
Lemma layer_at (k : string) (set d : Doc) (c : list Doc) (i : nat) :
  unique_skus c → c !! i = Some d → Mongo.has_sku k d = true →
  layer k set <$> c = <[i := set ∪ d]> c.
Proof.
  intros Hc Hi Hd. apply list_eq. intros j. rewrite list_lookup_fmap.
  destruct (decide (j = i)) as [-> | Hne].
  - rewrite list_lookup_insert_eq by (by eapply lookup_lt_Some).
    rewrite Hi. simpl. unfold layer. by rewrite Hd.
  - rewrite list_lookup_insert_ne by done.
    destruct (c !! j) as [d' |] eqn:Hj; [| done]. simpl. f_equal.
    unfold layer. destruct (Mongo.has_sku k d') eqn:Hd'; [| done].
    exfalso. apply Hne.
    unfold Mongo.has_sku in Hd, Hd'.
    apply bool_decide_eq_true in Hd, Hd'.
    apply (NoDup_lookup _ j i (Some (VStr k)) Hc).
    + by rewrite list_lookup_fmap, Hj, <- Hd'.
    + by rewrite list_lookup_fmap, Hi, <- Hd.
Qed.

Lemma layer_absent (k : string) (set : Doc) (c : list Doc) :
  Forall (λ d, ¬ (Mongo.has_sku k d = true)) c → layer k set <$> c = c.
Proof.
  intros Hall. rewrite <- (list_fmap_id c) at 2. apply list_fmap_ext.
  intros i d Hi. unfold layer.
  pose proof (Forall_lookup_1 _ _ _ _ Hall Hi) as Hd. simpl in Hd.
  destruct (Mongo.has_sku k d); [by destruct Hd | done].
Qed.

Lemma layer_base (k : string) (set : Doc) : layer k set (base k) = set ∪ base k.
Proof. unfold layer. rewrite has_sku_base. by rewrite bool_decide_eq_true_2. Qed.

(** On a catalog with unique skus, a keyed [updateOne] succeeds and is
    the upsert of [Upsert.apply]. *)
Lemma updateOne_keyed (op : WriteOp) (c : list Doc) :
  unique_skus c → keyed op → Mongo.refused (update_set op) = false →
  Mongo.updateOne op c = (apply c (kop op), None).
Proof.
  intros Hc Hop Hplain. pose proof (keyed_consistent op Hop) as Hset.
  destruct Hop as (k0 & Hf & Hp).
  unfold Mongo.updateOne. rewrite Hplain.
  unfold apply, kop in *. rewrite Hf in *. simpl in *.
  set (k := JsString.trim k0) in *.
  set (upd := Mongo.castUpdate (update_set op)) in *.
  unfold consistent in Hset. simpl in Hset.
  destruct (list_find _ c) as [[i d] |] eqn:Hfind.
  - apply list_find_Some in Hfind as (Hi & Hd & _).
    assert (present k c = true) as Hk.
    { apply present_has_sku. exists d. split; [| done].
      by eapply list_elem_of_lookup_2. }
    rewrite (ensure_present k c Hk), (layer_at k upd d c i Hc Hi Hd).
    assert (Mongo.sku_key (upd ∪ d) = Some (VStr k)) as Hkey
      by (by apply lookup_union_Some_l).
    rewrite bool_decide_eq_false_2; [done |].
    rewrite Hkey, list_fmap_delete. apply not_elem_of_delete; [done |].
    rewrite list_lookup_fmap, Hi. simpl. f_equal.
    unfold Mongo.has_sku in Hd. by apply bool_decide_eq_true in Hd.
  - apply list_find_None in Hfind.
    assert (present k c = false) as Hk.
    { apply not_true_is_false. intros (d & Hin & Hd)%present_has_sku.
      by apply (proj1 (Forall_forall _ _) Hfind d Hin). }
    unfold ensure. rewrite Hk, fmap_app, (layer_absent k upd c Hfind). simpl.
    rewrite layer_base.
    assert (Mongo.sku_key (upd ∪ base k) = Some (VStr k)) as Hkey
      by (by apply lookup_union_Some_l).
    fold (base k). rewrite bool_decide_eq_false_2; [done |].
    rewrite Hkey. unfold present in Hk. by apply bool_decide_eq_false in Hk.
Qed.

(** An update without a kept key has no [_id] to cast. *)
Lemma castError_plain (p : ValidProduct) :
  Mongo.refused p = false → Mongo.castError p = None.
Proof.
  intros Hplain. unfold Mongo.castError.
  destruct (vp_row p !! "_id") as [s |] eqn:Hid; [| done].
  assert (Mongo.refused p = true) as Hr; [| congruence].
  unfold Mongo.refused. apply existsb_exists. exists ("_id", s).
  split; [| done]. by apply list_elem_of_In, elem_of_map_to_list.
Qed.

Lemma no_cast_error (ops : list WriteOp) :
  Forall (λ op, Mongo.refused (update_set op) = false) ops →
  head (omap (λ op, Mongo.castError (update_set op)) ops) = None.
Proof.
  induction 1 as [| op ops Hop Hall IH]; [done |].
  simpl. by rewrite (castError_plain _ Hop).
Qed.

Lemma runOrdered_keyed (ops : list WriteOp) (c : list Doc) :
  unique_skus c → Forall keyed ops →
  Forall (λ op, Mongo.refused (update_set op) = false) ops →
  Mongo.runOrdered ops c = (run (kop <$> ops) c, None).
Proof.
  intros Hc Hall. revert c Hc.
  induction Hall as [| op ops Hop Hall IH]; intros c Hc Hplain; [done |].
  apply Forall_cons in Hplain as [Hp Hplain].
  simpl. rewrite (updateOne_keyed op c Hc Hop Hp). apply IH; [| done].
  apply unique_apply; [by apply keyed_consistent | done].
Qed.

(** On a catalog with unique skus, a batch of keyed operations without
    kept keys does not fail and is the run of its upserts. *)
Lemma bulkWrite_keyed (ops : list WriteOp) (c : list Doc) :
  unique_skus c → Forall keyed ops →
  Forall (λ op, Mongo.refused (update_set op) = false) ops →
  Mongo.bulkWrite ops c = (run (kop <$> ops) c, None).
Proof.
  intros Hc Hall Hplain. unfold Mongo.bulkWrite.
  rewrite (no_cast_error ops Hplain). by apply runOrdered_keyed.
Qed.

Lemma keyed_all_consistent (ops : list WriteOp) :
  Forall keyed ops → Forall consistent (kop <$> ops).
Proof.
  intros Hall. apply Forall_fmap. eapply Forall_impl; [exact Hall |].
  intros op Hop. by apply keyed_consistent.
Qed.




End StoreFacts.

(** ** Uploads on the store model *)

Section UploadFacts.

Lemma accepted_has_sku (r : RawRow) (p : ValidProduct) :
  validateRow r = Accepted p → ∃ k0, product_sku p = Some k0.
Proof.
  intros Hv. pose proof (validateRow_accepted r p Hv) as ->.
  destruct (Rules.missing_required r) eqn:Hm.
  - apply validateRow_missing in Hm. congruence.
  - rewrite missing_required_unfold, !orb_false_iff in Hm.
    destruct Hm as ((((Hsku & _) & _) & _) & _).
    apply negb_false_iff, truthy_true in Hsku as (k0 & Hk0 & _).
    by exists k0.
Qed.

Lemma operations_all_keyed (rs : list RawRow) :
  Forall keyed (operations_of (accepted rs)).
Proof.
  apply Forall_forall. intros op Hop.
  apply operations_keyed in Hop as [Hin Hf].
  apply elem_of_accepted in Hin as (r & _ & Hv).
  destruct (accepted_has_sku r _ Hv) as (k0 & Hk0).
  exists k0. by rewrite Hf.
Qed.

Lemma kops_consistent (rs : list RawRow) :
  Forall Upsert.consistent (kops_of rs).
Proof. apply keyed_all_consistent, operations_all_keyed. Qed.

(** A row in the expected format has no kept key. *)
Lemma expected_not_kept (k : string) :
  existsb (String.eqb k) expected_columns = true → Mongo.kept_key k = false.
Proof.
  unfold expected_columns. simpl. intros Hk.
  destruct (String.eqb_spec k "sku") as [Heq | _]; [by rewrite Heq |].
  destruct (String.eqb_spec k "name") as [Heq | _]; [by rewrite Heq |].
  destruct (String.eqb_spec k "brand") as [Heq | _]; [by rewrite Heq |].
  destruct (String.eqb_spec k "color") as [Heq | _]; [by rewrite Heq |].
  destruct (String.eqb_spec k "size") as [Heq | _]; [by rewrite Heq |].
  destruct (String.eqb_spec k "mrp") as [Heq | _]; [by rewrite Heq |].
  destruct (String.eqb_spec k "price") as [Heq | _]; [by rewrite Heq |].
  destruct (String.eqb_spec k "quantity") as [Heq | _]; [by rewrite Heq |].
  discriminate Hk.
Qed.

Lemma in_format_plain (r : RawRow) (p : ValidProduct) :
  in_format r = true → vp_row p = r → Mongo.refused p = false.
Proof.
  intros Hr Hp. apply not_true_is_false.
  unfold Mongo.refused. rewrite Hp. intros (kv & Hin & Hkept)%existsb_exists.
  unfold in_format in Hr. rewrite forallb_forall in Hr.
  by rewrite (expected_not_kept _ (Hr kv Hin)) in Hkept.
Qed.

Lemma operations_plain (rs : list RawRow) :
  expected_format rs = true →
  Forall (λ op, Mongo.refused (update_set op) = false)
    (operations_of (accepted rs)).
Proof.
  intros Hrs. apply Forall_forall. intros op Hop.
  apply operations_keyed in Hop as [Hin _].
  apply elem_of_accepted in Hin as (r & Hr & Hv).
  apply (in_format_plain r).
  - unfold expected_format in Hrs. rewrite forallb_forall in Hrs.
    by apply Hrs, list_elem_of_In.
  - by rewrite (validateRow_accepted r _ Hv).
Qed.

(** An upload of a file in the expected format to a catalog with unique
    skus ends in the summary and leaves the run of its upserts. *)
Lemma upload_on_store (rs : list RawRow) (c : list Doc) :
  expected_format rs = true → unique_skus c →
  reply (uploadProducts (Some {| rows := rs; ending := End |}) c) = summary_of rs
  ∧ store_after (uploadProducts (Some {| rows := rs; ending := End |}) c)
    = Upsert.run (kops_of rs) c.
Proof.
  intros Hrs Hc. simpl. fold (run rs).
  rewrite onEnd_run. unfold kops_of.
  pose proof (operations_plain rs Hrs) as Hplain.
  destruct (accepted rs) as [| p ps] eqn:Hacc; [done |].
  cbn [bulkWrite Mongo.store].
  rewrite (bulkWrite_keyed _ c Hc)
    by (try done; rewrite <- Hacc; apply operations_all_keyed).
  done.
Qed.

End UploadFacts.



Module UploadExamples.

(** Outside the expected columns the batch can fail: an [_id] cell that
    is no ObjectId fails the cast, a column under the path [name] is
    refused; both uploads answer 500 and leave the catalog as it was,
    although every row was accepted. *)
Example id_column_fails_the_batch :
  let out := uploadProducts (Some {| rows := id_column_file; ending := End |})
               [acme_entry] in
  length (accepted id_column_file) = 1
  ∧ status (reply out) = 500 ∧ store_after out = [acme_entry].
Proof. vm_compute. by split_and!. Qed.

Example dotted_column_is_refused :
  let out := uploadProducts (Some {| rows := dotted_column_file; ending := End |})
               [acme_entry] in
  length (accepted dotted_column_file) = 1
  ∧ status (reply out) = 500 ∧ store_after out = [acme_entry].
Proof. vm_compute. by split_and!. Qed.

Example valid_file_summary :
  reply (uploadProducts (Some {| rows := valid_file; ending := End |})
           ([] : list Doc))
  = json 201 (Summary "CSV data processed successfully." 2 0 []).
Proof. by vm_compute. Qed.

Example valid_file_count :
  length (store_after (uploadProducts
                         (Some {| rows := valid_file; ending := End |})
                         ([] : list Doc))) = 2.
Proof. by vm_compute. Qed.

Example no_file :
  uploadProducts None ([] : list Doc)
  = (json 400 (Message "No file found. Please upload a CSV file."), [], []).
Proof. reflexivity. Qed.

End UploadExamples.

Section LastWins.

Lemma layers_app (a b : list (string * Doc)) (d : Doc) :
  Upsert.layers (a ++ b) d = Upsert.layers b (Upsert.layers a d).
Proof. unfold Upsert.layers. by rewrite fold_left_app. Qed.

(** Updates under other skus leave a document alone. *)
Lemma layers_other (kops : list (string * Doc)) (k : string) (d : Doc) :
  (∀ ko, ko ∈ kops → ko.1 ≠ k) → Mongo.has_sku k d = true →
  Upsert.layers kops d = d.
Proof.
  intros Hother Hd. induction kops as [| ko kops IH]; [done |].
  change (Upsert.layers (ko :: kops) d)
    with (Upsert.layers kops (Upsert.layer ko.1 ko.2 d)).
  assert (Upsert.layer ko.1 ko.2 d = d) as ->.
  { unfold Upsert.layer. destruct (Mongo.has_sku ko.1 d) eqn:Hko; [| done].
    exfalso. apply (Hother ko); [apply elem_of_cons; by left |].
    unfold Mongo.has_sku in Hd, Hko. apply bool_decide_eq_true in Hd, Hko.
    congruence. }
  apply IH. intros ko' Hin. apply Hother, elem_of_cons. by right.
Qed.

Lemma kops_of_products (rs : list RawRow) :
  kops_of rs = kop_of_product <$> accepted rs.
Proof.
  unfold kops_of, operations_of. rewrite <- list_fmap_compose.
  by apply list_fmap_ext.
Qed.

Lemma product_key_kop (p : ValidProduct) (k : string) :
  product_key p = Some k → (kop_of_product p).1 = k.
Proof.
  unfold product_key, kop_of_product. simpl.
  destruct (product_sku p); simpl; congruence.
Qed.

(** After the batch, the one entry under a sku holds every value of
    the last accepted row with that sku. *)
Lemma last_row_wins (rs : list RawRow) (c : list Doc)
    (before after : list ValidProduct) (last : ValidProduct) (k : string) :
  unique_skus c →
  accepted rs = before ++ last :: after →
  product_key last = Some k →
  (∀ p, p ∈ after → product_key p ≠ Some k) →
  ∃ i d, Upsert.run (kops_of rs) c !! i = Some d
         ∧ d !! "sku" = Some (VStr k)
         ∧ (∀ j d', Upsert.run (kops_of rs) c !! j = Some d' →
                    d' !! "sku" = Some (VStr k) → j = i)
         ∧ Mongo.castUpdate last ⊆ d.
Proof.
  intros Hc Hacc Hlast Hafter.
  pose proof (kops_consistent rs) as Hall.
  pose proof (unique_run (kops_of rs) c Hall Hc) as Huniq.
  rewrite run_layers in * by done.
  set (kops := kops_of rs) in *.
  set (E := Upsert.ensure_all kops c) in *.
  assert (kops = (kop_of_product <$> before)
                 ++ [kop_of_product last] ++ (kop_of_product <$> after)) as Hsplit.
  { unfold kops. by rewrite kops_of_products, Hacc, fmap_app. }
  pose proof (product_key_kop last k Hlast) as Hk.
  assert (Upsert.present k E = true) as Hpresent.
  { rewrite <- Hk. apply present_ensure_all. rewrite Hsplit.
    apply elem_of_app. right. apply elem_of_cons. by left. }
  apply present_has_sku in Hpresent as (d0 & Hin & Hd0).
  apply list_elem_of_lookup in Hin as (i & Hi).
  assert (Mongo.sku_key (Upsert.layers kops d0) = Some (VStr k)) as Hkey.
  { destruct (layers_merged kops d0 Hall) as [_ ->].
    unfold Mongo.has_sku in Hd0. by apply bool_decide_eq_true in Hd0. }
  exists i, (Upsert.layers kops d0). split_and!.
  - by rewrite list_lookup_fmap, Hi.
  - exact Hkey.
  - intros j d' Hj Hd'. unfold unique_skus in Huniq.
    apply (NoDup_lookup _ j i (Some (VStr k)) Huniq).
    + rewrite list_lookup_fmap, Hj. simpl. f_equal. exact Hd'.
    + rewrite !list_lookup_fmap, Hi. simpl. f_equal. exact Hkey.
  - rewrite Hsplit, !layers_app.
    assert (Forall Upsert.consistent (kop_of_product <$> before)
            ∧ Upsert.consistent (kop_of_product last)) as [Hbefore Hcons].
    { pose proof Hall as Hall'. rewrite Hsplit in Hall'.
      apply Forall_app in Hall' as [Hb Hrest].
      apply Forall_app in Hrest as [Hl _]. apply Forall_inv in Hl. done. }
    set (d1 := Upsert.layers (kop_of_product <$> before) d0).
    assert (Mongo.has_sku k d1 = true) as Hd1.
    { rewrite (has_sku_key k d1 d0); [done |].
      by apply layers_merged. }
    assert (Upsert.layers [kop_of_product last] d1 = Mongo.castUpdate last ∪ d1)
      as ->.
    { unfold Upsert.layers, Upsert.layer. simpl. fold (product_sku last).
      change (JsString.trim (default "" (product_sku last)))
        with (kop_of_product last).1.
      by rewrite Hk, Hd1. }
    rewrite (layers_other _ k).
    + apply map_union_subseteq_l.
    + intros ko (p & -> & Hp)%list_elem_of_fmap Heq.
      apply (Hafter p Hp).
      assert (p ∈ accepted rs) as Hpacc.
      { rewrite Hacc. apply elem_of_app. right. apply elem_of_cons. by right. }
      apply elem_of_accepted in Hpacc as (r & _ & Hv).
      destruct (accepted_has_sku r p Hv) as (k0 & Hk0).
      unfold product_key. unfold kop_of_product in Heq. simpl in Heq.
      rewrite Hk0 in *. simpl in *. by rewrite Heq.
    + unfold Mongo.has_sku, Mongo.sku_key.
      apply bool_decide_eq_true. apply lookup_union_Some_l.
      unfold Upsert.consistent in Hcons. by rewrite Hk in Hcons.
Qed.



End LastWins.

Lemma castUpdate_numbers (p : ValidProduct) :
  Mongo.castUpdate p !! "mrp" = Some (VNum (vp_mrp p))
  ∧ Mongo.castUpdate p !! "price" = Some (VNum (vp_price p))
  ∧ Mongo.castUpdate p !! "quantity"
    = Some (VNum (JsNumber.of_int (vp_quantity p))).
Proof.
  unfold Mongo.castUpdate. split_and!.
  - by rewrite lookup_insert_eq.
  - rewrite lookup_insert_ne by done. by rewrite lookup_insert_eq.
  - rewrite !lookup_insert_ne by done. by rewrite lookup_insert_eq.
Qed.


Module RepeatedSkuExamples.

Example stored_counts_all_rows :
  reply (uploadProducts (Some {| rows := repeated_sku_file; ending := End |})
           ([] : list Doc))
  = json 201 (Summary "CSV data processed successfully." 3 0 []).
Proof. by vm_compute. Qed.

Example catalog_has_two_entries :
  (λ d, (d !! "sku", d !! "size", d !! "price"))
    <$> store_after (uploadProducts
                       (Some {| rows := repeated_sku_file; ending := End |})
                       ([] : list Doc))
  = [ (Some (VStr "TSHIRT-RED-M-001"), Some (VStr "L"),
       Some (VNum (JsNumber.Fin (450 # 1))));
      (Some (VStr "JEANS-BLU-32-002"), Some (VStr "32"),
       Some (VNum (JsNumber.Fin (1500 # 1)))) ].
Proof. by vm_compute. Qed.

End RepeatedSkuExamples.



(** * Further properties of the controllers *)

(** ** What the row validator accepts *)

Section AcceptanceFacts.

Lemma gtb_negb_leb (x y : JsNumber.t) :
  JsNumber.isNaN x = false → JsNumber.isNaN y = false →
  JsNumber.gtb y x = negb (JsNumber.leb y x).
Proof.
  by destruct x as [| | | a], y as [| | | b].
Qed.

Lemma leb_zero_of_int (q : Z) :
  JsNumber.leb (JsNumber.of_int (Some 0%Z)) (JsNumber.of_int (Some q))
  = negb (q <? 0)%Z.
Proof.
  simpl. unfold Qle_bool. simpl. rewrite Z.mul_1_r.
  destruct (Z.ltb_spec q 0), (Z.leb_spec 0 q); simpl; try done; lia.
Qed.

Lemma truthy_required (r : RawRow) :
  Rules.missing_required r = false ↔
  ∀ f, f ∈ Rules.required_fields → ∃ s, r !! f = Some s ∧ s ≠ "".
Proof.
  split.
  - intros Hm f Hf. apply truthy_true.
    destruct (JsString.truthy (r !! f)) eqn:Ht; [done |].
    assert (Rules.missing_required r = true) as Hm'; [| congruence].
    apply missing_required_spec. exists f. split; [done |].
    by apply truthy_false.
  - intros Hall. apply not_true_is_false.
    intros (f & Hf & Hempty)%missing_required_spec.
    destruct (Hall f Hf) as (s & Hs & Hne).
    destruct Hempty as [Hnone | Hsome]; congruence.
Qed.

Lemma first_failure_none (r : RawRow) :
  Rules.first_failure r = None ↔
  Rules.missing_required r = false ∧ Rules.bad_number r = false
  ∧ Rules.price_above_mrp r = false ∧ Rules.negative_quantity r = false.
Proof.
  unfold Rules.first_failure, Rules.rules. simpl.
  destruct (Rules.missing_required r); [by split; [| intros (? & _)] |].
  destruct (Rules.bad_number r); [by split; [| intros (_ & ? & _)] |].
  destruct (Rules.price_above_mrp r); [by split; [| intros (_ & _ & ? & _)] |].
  destruct (Rules.negative_quantity r); [by split; [| intros (_ & _ & _ & ?)] |].
  done.
Qed.

Lemma validateRow_accepted_iff (r : RawRow) (p : ValidProduct) :
  validateRow r = Accepted p ↔
  p = Rules.product_of r ∧ Rules.first_failure r = None.
Proof.
  rewrite validateRow_verdict. unfold Rules.verdict.
  destruct (Rules.first_failure r); split; try done.
  - by intros [_ ?].
  - by intros [= <-].
  - by intros [-> _].
Qed.

End AcceptanceFacts.

(** X1. A row is accepted exactly when its five required cells are
    non-empty, mrp and price parse to numbers, the price is not above the
    mrp, and the quantity (0 when absent or empty) parses to an integer
    that is not negative; the product then carries the row and these
    three numbers. Nothing else is asked: the sign of mrp and price is
    never looked at. *)
Theorem acceptance_criterion (r : RawRow) (p : ValidProduct) :
  validateRow r = Accepted p ↔
  p = Rules.product_of r
  ∧ (∀ f, f ∈ Rules.required_fields → ∃ s, r !! f = Some s ∧ s ≠ "")
  ∧ parseFloatV (r !! "mrp") ≠ JsNumber.NaN
  ∧ parseFloatV (r !! "price") ≠ JsNumber.NaN
  ∧ JsNumber.leb (parseFloatV (r !! "price")) (parseFloatV (r !! "mrp")) = true
  ∧ ∃ q, quantity_number r = Some q ∧ (0 ≤ q)%Z.
Proof.
  rewrite validateRow_accepted_iff, first_failure_none, truthy_required.
  unfold Rules.bad_number, Rules.price_above_mrp, Rules.negative_quantity.
  rewrite parseQuantity_quantity_number.
  rewrite !orb_false_iff.
  split.
  - intros (-> & Hreq & ((Hm & Hp) & Hq) & Hgt & Hneg).
    split_and!; try done.
    + intros Hnan. by rewrite Hnan in Hm.
    + intros Hnan. by rewrite Hnan in Hp.
    + rewrite (gtb_negb_leb _ _ Hm Hp) in Hgt. by apply negb_false_iff in Hgt.
    + destruct (quantity_number r) as [q |]; [| done].
      exists q. split; [done |]. simpl in Hneg. lia.
  - intros (-> & Hreq & Hm & Hp & Hle & q & Hq & Hq0).
    assert (JsNumber.isNaN (parseFloatV (r !! "mrp")) = false) as Hm'
      by (by destruct (parseFloatV (r !! "mrp"))).
    assert (JsNumber.isNaN (parseFloatV (r !! "price")) = false) as Hp'
      by (by destruct (parseFloatV (r !! "price"))).
    split_and!; try done.
    + by rewrite Hq.
    + by rewrite (gtb_negb_leb _ _ Hm' Hp'), Hle.
    + rewrite Hq. simpl. lia.
Qed.

(** X2. The verdict reads six cells only: two rows that agree on sku,
    name, brand, mrp, price and quantity are both accepted, with the same
    numbers, or both rejected, for the same reason, whatever their color,
    size or further columns. *)
Theorem verdict_reads_six_cells (r r' : RawRow) :
  (∀ f, f ∈ validated_fields → r !! f = r' !! f) →
  match validateRow r, validateRow r' with
  | Accepted p, Accepted p' =>
      vp_mrp p = vp_mrp p' ∧ vp_price p = vp_price p'
      ∧ vp_quantity p = vp_quantity p'
  | Rejected why, Rejected why' => why = why'
  | _, _ => False
  end.
Proof.
  intros Hsame.
  assert (∀ f, f ∈ validated_fields → r' !! f = r !! f) as Heq
    by (intros f Hf; by rewrite Hsame).
  unfold validateRow.
  rewrite (Heq "sku"), (Heq "name"), (Heq "brand"), (Heq "mrp"), (Heq "price"),
    (Heq "quantity") by (unfold validated_fields; set_solver).
  repeat (match goal with |- context [if ?b then _ else _] => destruct b end;
          try done).
Qed.

Lemma verdict_reads_six_cells_witness :
  (∀ f, f ∈ validated_fields → red_shirt_row !! f = blue_shirt_row !! f)
  ∧ red_shirt_row !! "color" ≠ blue_shirt_row !! "color"
  ∧ match validateRow red_shirt_row, validateRow blue_shirt_row with
    | Accepted p, Accepted p' =>
        vp_mrp p = vp_mrp p' ∧ vp_price p = vp_price p'
        ∧ vp_quantity p = vp_quantity p'
    | Rejected why, Rejected why' => why = why'
    | _, _ => False
    end.
Proof.
  assert (∀ f, f ∈ validated_fields → red_shirt_row !! f = blue_shirt_row !! f)
    as Hsame.
  { intros f Hf. unfold validated_fields in Hf.
    repeat (apply elem_of_cons in Hf as [-> | Hf]; [by vm_compute |]).
    by apply elem_of_nil in Hf. }
  split; [exact Hsame |]. split; [by vm_compute |].
  exact (verdict_reads_six_cells red_shirt_row blue_shirt_row Hsame).
Defined.

(** ** Uploads, over any store *)

Section UploadFrame.
Context {DB : Type} `{CatalogStore DB}.

Lemma accepted_rejected_length (rs : list RawRow) :
  length (accepted rs) + length (rejected rs) = length rs.
Proof.
  induction rs as [| r rs IH]; [done |].
  change (r :: rs) with ([r] ++ rs).
  rewrite accepted_app. unfold rejected in *. rewrite List.filter_app, !length_app.
  unfold accepted at 1, is_rejected at 1. simpl.
  destruct (validateRow r); simpl; lia.
Qed.

Lemma operations_nonempty (valid : list ValidProduct) :
  valid ≠ [] → operations_of valid ≠ [].
Proof. by destruct valid. Qed.

(** X3. Every data row is counted exactly once: in the summary, stored
    plus failed is the number of rows the stream delivered, and failed is
    the number of rejection records listed. *)
Theorem every_row_counted (rs : list RawRow) (db : DB) :
  let out := uploadProducts (Some {| rows := rs; ending := End |}) db in
  rowCount (run rs) = length rs
  ∧ length (accepted rs) + length (rejected rs) = length rs
  ∧ ∀ message stored failed details,
      body (reply out) = Summary message stored failed details →
      stored + failed = length rs ∧ length details = failed.
Proof.
  simpl. fold (run rs). rewrite onEnd_run. split_and!.
  - by rewrite run_state.
  - apply accepted_rejected_length.
  - intros message stored failed details.
    assert (body (summary_of rs) = Summary message stored failed details →
            stored + failed = length rs ∧ length details = failed) as Hsum.
    { unfold summary_of. simpl. intros [= _ <- <- <-].
      split; [apply accepted_rejected_length | apply rejections_length]. }
    unfold reply. destruct (accepted rs); simpl; [exact Hsum |].
    by destruct (bulkWrite _ db) as [db' [err |]].
Qed.

(** X4. An upload reaches the store through at most one [bulkWrite], of
    a batch that is not empty, and leaves the store as that call left it,
    also when the call threw: nothing is rolled back, and the reply is
    then the 500 and not the summary. No batch is sent exactly when no
    file is attached (the 400), the stream broke (the 500 of the
    parser, whatever rows came before), or no row was accepted (the
    summary with stored 0); the store is then as it was. *)
Theorem upload_touches_store_once (file : option CsvStream) (db : DB) :
  let out := uploadProducts file db in
  (length (batches out) ≤ 1)%nat
  ∧ (batches out = [] → store_after out = db)
  ∧ (∀ batch, batch ∈ batches out →
       batch ≠ []
       ∧ store_after out = (bulkWrite batch db).1
       ∧ (status (reply out) = 201 ↔ (bulkWrite batch db).2 = None)
       ∧ (∀ err, (bulkWrite batch db).2 = Some err →
            reply out =
              json 500 (Failure "Error storing Product Details in the database." err)))
  ∧ (batches out = [] ↔
       file = None
       ∨ (∃ rs msg, file = Some {| rows := rs; ending := Error msg |})
       ∨ (∃ rs, file = Some {| rows := rs; ending := End |} ∧ accepted rs = []))
  ∧ (file = None →
       reply out = json 400 (Message "No file found. Please upload a CSV file."))
  ∧ (∀ rs msg, file = Some {| rows := rs; ending := Error msg |} →
       reply out = json 500 (Failure "Error in parsing CSV file." msg))
  ∧ (∀ rs, file = Some {| rows := rs; ending := End |} → accepted rs = [] →
       reply out =
         json 201 (Summary "CSV data processed successfully." 0 (length rs)
                     (rejections 0 rs))).
Proof.
  destruct file as [[rs [| msg]] |].
  - (* an exhausted stream *)
    simpl. fold (run rs). rewrite onEnd_run.
    destruct (accepted rs) as [| p ps] eqn:Hacc.
    + unfold batches, store_after, reply. simpl. split_and!; try done; try lia.
      * intros batch Hin. by apply elem_of_nil in Hin.
      * split; [| done]. intros _. right. right. by exists rs.
      * intros rs' [= <-] _. unfold summary_of. rewrite Hacc. simpl.
        pose proof (accepted_rejected_length rs) as Hlen.
        rewrite Hacc in Hlen. simpl in Hlen. by rewrite Hlen.
    + assert (operations_of (p :: ps) ≠ []) as Hne by done.
      remember (operations_of (p :: ps)) as ops eqn:Hops. cbv beta iota zeta.
      destruct (bulkWrite ops db) as [db' [err |]] eqn:Hbw;
        unfold batches, store_after, reply; simpl.
      * split_and!; try done; try lia.
        -- intros batch ->%list_elem_of_singleton. rewrite Hbw. simpl.
           split_and!; try done. by intros err' [= <-].
        -- split; [done |]. intros [? | [(? & ? & ?) | (rs' & [= <-] & Hnil)]];
             try done. congruence.
        -- intros rs' [= <-] Hnil. congruence.
      * split_and!; try done; try lia.
        -- intros batch ->%list_elem_of_singleton. rewrite Hbw. simpl.
           split_and!; try done.
        -- split; [done |]. intros [? | [(? & ? & ?) | (rs' & [= <-] & Hnil)]];
             try done. congruence.
        -- intros rs' [= <-] Hnil. congruence.
  - (* a stream that broke *)
    unfold batches, store_after, reply. simpl. split_and!; try done; try lia.
    + intros batch Hin. by apply elem_of_nil in Hin.
    + split; [| done]. intros _. right. left. by exists rs, msg.
    + by intros rs' msg' [= _ <-].
  - (* no file *)
    unfold batches, store_after, reply. simpl. split_and!; try done; try lia.
    + intros batch Hin. by apply elem_of_nil in Hin.
    + split; [| done]. intros _. by left.
Qed.

End UploadFrame.

(** ** The listing at and beyond its edges *)

Section ListingEdges.

Lemma to_nat_offset (n : nat) (limit : Z) :
  (0 ≤ limit)%Z →
  Z.to_nat ((Z.of_nat (S n) - 1) * limit) = n * Z.to_nat limit.
Proof.
  intros Hl. replace (Z.of_nat (S n) - 1)%Z with (Z.of_nat n) by lia.
  rewrite Z2Nat.inj_mul by lia. by rewrite Nat2Z.id.
Qed.

Lemma requested_text (s : string) (p : nat) :
  (1 ≤ p)%nat → JsParse.parseInt s = Some (Z.of_nat p) →
  requested (Some s) 1 (Z.of_nat p).
Proof. intros Hp Hs. right. exists s. split_and!; [done | done | lia]. Qed.

(** The first [n] pages, one after the other, are the first [n * limit]
    entries. *)
Lemma pages_prefix (c : list Doc) (limit_q : option string) (limit : Z)
    (text : nat → string) (n : nat) :
  requested limit_q 10 limit →
  (∀ p, (1 ≤ p ≤ n)%nat → JsParse.parseInt (text p) = Some (Z.of_nat p)) →
  concat ((λ p, page_products (getAllProducts (Some (text p)) limit_q c))
            <$> seq 1 n)
  = take (n * Z.to_nat limit) c.
Proof.
  intros Hl. induction n as [| n IH]; intros Htext; [done |].
  rewrite seq_S, fmap_app, concat_app, IH by (intros p Hp; apply Htext; lia).
  simpl. rewrite app_nil_r.
  assert (requested (Some (text (S n))) 1 (Z.of_nat (S n))) as Hp
    by (apply requested_text; [lia | apply Htext; lia]).
  destruct (getAllProducts_on_store c _ limit_q _ limit Hp Hl) as (_ & Hl1 & ->).
  simpl. rewrite to_nat_offset by lia.
  rewrite take_take_drop. f_equal. lia.
Qed.

End ListingEdges.

(** X5. A page beyond the last one is no error: with page and limit at
    least 1 and an offset at or past the end of the catalog, the listing
    answers 200 with the unchanged totals, a page count below the page
    asked for, and no products. *)
Theorem page_past_the_end (c : list Doc) (page_q limit_q : option string)
    (page limit : Z) :
  requested page_q 1 page → requested limit_q 10 limit →
  (Z.of_nat (length c) ≤ (page - 1) * limit)%Z →
  getAllProducts page_q limit_q c
  = Some (json 200 (Page (length c) (ceilDiv (Z.of_nat (length c)) limit) page []))
  ∧ (ceilDiv (Z.of_nat (length c)) limit < page)%Z.
Proof.
  intros Hp Hl Hpast.
  destruct (getAllProducts_on_store c page_q limit_q page limit Hp Hl)
    as (Hp1 & Hl1 & ->).
  rewrite drop_ge by lia. rewrite take_nil. split; [done |].
  pose proof (ceilDiv_bounds (Z.of_nat (length c)) limit ltac:(lia)). nia.
Qed.

Lemma page_past_the_end_witness :
  requested (Some "4") 1 4 ∧ requested (Some "5") 10 5
  ∧ (Z.of_nat (length listing_fixture) ≤ (4 - 1) * 5)%Z
  ∧ getAllProducts (Some "4") (Some "5") listing_fixture
    = Some (json 200 (Page (length listing_fixture)
                        (ceilDiv (Z.of_nat (length listing_fixture)) 5) 4 []))
  ∧ (ceilDiv (Z.of_nat (length listing_fixture)) 5 < 4)%Z.
Proof.
  assert (requested (Some "4") 1 4) as H4.
  { right. exists "4". split_and!; [reflexivity | reflexivity | lia]. }
  assert (requested (Some "5") 10 5) as H5.
  { right. exists "5". split_and!; [reflexivity | reflexivity | lia]. }
  assert (Z.of_nat (length listing_fixture) ≤ (4 - 1) * 5)%Z as Hpast
    by (by vm_compute).
  split; [exact H4 |]. split; [exact H5 |]. split; [exact Hpast |].
  exact (page_past_the_end listing_fixture (Some "4") (Some "5") 4 5 H4 H5 Hpast).
Defined.

(** X6. The pages of a listing partition the catalog: for a limit of at
    least 1, the products of the pages 1 to n, put one after the other,
    are the whole catalog in storage order as soon as n pages have room
    for it; no entry is left out or listed twice. *)
Theorem pages_cover_catalog (c : list Doc) (limit_q : option string) (limit : Z)
    (text : nat → string) (n : nat) :
  requested limit_q 10 limit →
  (∀ p, (1 ≤ p ≤ n)%nat → JsParse.parseInt (text p) = Some (Z.of_nat p)) →
  (Z.of_nat (length c) ≤ Z.of_nat n * limit)%Z →
  concat ((λ p, page_products (getAllProducts (Some (text p)) limit_q c))
            <$> seq 1 n)
  = c.
Proof.
  intros Hl Htext Hroom. rewrite (pages_prefix c limit_q limit text n Hl Htext).
  apply take_ge.
  assert (1 ≤ limit)%Z as Hl1.
  { destruct Hl as [[_ ->] | (s & _ & _ & Hl1)]; [lia | done]. }
  apply Nat2Z.inj_le. rewrite Nat2Z.inj_mul, Z2Nat.id by lia. done.
Qed.

Lemma pages_cover_catalog_witness :
  requested (Some "5") 10 5
  ∧ (∀ p, (1 ≤ p ≤ 3)%nat → JsParse.parseInt (page_text p) = Some (Z.of_nat p))
  ∧ (Z.of_nat (length listing_fixture) ≤ Z.of_nat 3 * 5)%Z
  ∧ concat ((λ p, page_products
                    (getAllProducts (Some (page_text p)) (Some "5") listing_fixture))
              <$> seq 1 3)
    = listing_fixture.
Proof.
  assert (requested (Some "5") 10 5) as H5.
  { right. exists "5". split_and!; [reflexivity | reflexivity | lia]. }
  assert (∀ p, (1 ≤ p ≤ 3)%nat →
               JsParse.parseInt (page_text p) = Some (Z.of_nat p)) as Htext.
  { intros p [Hlo Hhi]. destruct p as [| [| [| [| p]]]]; try lia; reflexivity. }
  assert (Z.of_nat (length listing_fixture) ≤ Z.of_nat 3 * 5)%Z as Hroom
    by (by vm_compute).
  split; [exact H5 |]. split; [exact Htext |]. split; [exact Hroom |].
  exact (pages_cover_catalog listing_fixture (Some "5") 5 page_text 3
           H5 Htext Hroom).
Defined.

(** X7. A page outside the contract. A page text that parses to NaN or
    to 0 is served like an absent page, that is as page 1. A page text
    that parses to a negative integer, with a limit of at least 1, makes
    the store refuse the negative skip: the listing answers 500 with
    "Error fetching products." and no page. *)
Theorem page_outside_contract (c : list Doc) (s0 s : string) (page : Z)
    (limit_q : option string) (limit : Z) :
  requested limit_q 10 limit →
  JsParse.parseInt s0 = None ∨ JsParse.parseInt s0 = Some 0%Z →
  JsParse.parseInt s = Some page → (page < 0)%Z →
  getAllProducts (Some s0) limit_q c = getAllProducts None limit_q c
  ∧ ∃ err, getAllProducts (Some s) limit_q c
           = Some (json 500 (Failure "Error fetching products." err)).
Proof.
  intros Hl Hs0 Hs Hneg. split.
  - unfold getAllProducts, parseIntOr. simpl.
    by destruct Hs0 as [-> | ->].
  - apply (parseIntOr_requested _ 10 limit ltac:(lia)) in Hl as [Hl Hl1].
    exists "skip must be non-negative".
    unfold getAllProducts. rewrite Hl.
    assert (parseIntOr (Some s) 1 = page) as ->.
    { unfold parseIntOr. simpl. rewrite Hs.
      destruct (Z.eqb_spec page 0); [lia | done]. }
    cbn [find Mongo.store]. unfold Mongo.find, noFilter, Mongo.page_of. simpl.
    destruct (Z.ltb_spec ((page - 1) * limit) 0); [done | nia].
Qed.

Lemma page_outside_contract_witness :
  requested (Some "5") 10 5
  ∧ (JsParse.parseInt "first" = None ∨ JsParse.parseInt "first" = Some 0%Z)
  ∧ JsParse.parseInt "-2" = Some (-2)%Z ∧ (-2 < 0)%Z
  ∧ getAllProducts (Some "first") (Some "5") listing_fixture
    = getAllProducts None (Some "5") listing_fixture
  ∧ ∃ err, getAllProducts (Some "-2") (Some "5") listing_fixture
           = Some (json 500 (Failure "Error fetching products." err)).
Proof.
  assert (requested (Some "5") 10 5) as H5.
  { right. exists "5". split_and!; [reflexivity | reflexivity | lia]. }
  assert (JsParse.parseInt "first" = None ∨ JsParse.parseInt "first" = Some 0%Z)
    as H0 by (left; reflexivity).
  assert (JsParse.parseInt "-2" = Some (-2)%Z) as Hs by reflexivity.
  assert (-2 < 0)%Z as Hneg by lia.
  split; [exact H5 |]. split; [exact H0 |]. split; [exact Hs |].
  split; [exact Hneg |].
  exact (page_outside_contract listing_fixture "first" "-2" (-2) (Some "5") 5
           H5 H0 Hs Hneg).
Defined.

(** ** The search at its edges *)

Section SearchEdges.
Import Criteria.

Lemma sublist_List_filter {A : Type} (f : A → bool) (l : list A) :
  sublist (List.filter f l) l.
Proof.
  induction l as [| x l IH]; simpl; [constructor |].
  destruct (f x); by constructor.
Qed.

Lemma List_filter_none {A : Type} (f : A → bool) (l : list A) :
  (∀ x, x ∈ l → f x = false) → List.filter f l = [].
Proof.
  induction l as [| x l IH]; intros Hall; [done |]. simpl.
  rewrite (Hall x) by (apply elem_of_cons; by left).
  apply IH. intros y Hy. apply Hall, elem_of_cons. by right.
Qed.

Lemma List_filter_ext {A : Type} (f g : A → bool) (l : list A) :
  (∀ x, f x = g x) → List.filter f l = List.filter g l.
Proof.
  intros Hfg. induction l as [| x l IH]; [done |]. simpl.
  by rewrite Hfg, IH.
Qed.

Lemma leb_trans (x y z : JsNumber.t) :
  JsNumber.leb x y = true → JsNumber.leb y z = true → JsNumber.leb x z = true.
Proof.
  destruct x as [| | | a], y as [| | | b], z as [| | | c]; try done.
  simpl. rewrite !Qle_bool_iff. apply Qle_trans.
Qed.

Lemma unfiltered_filter (q : SearchQuery) :
  unfiltered q = true → buildFilter q = noFilter.
Proof.
  unfold unfiltered. rewrite !andb_true_iff, !negb_true_iff.
  intros ((((Hn & Hb) & Hc) & Hmin) & Hmax).
  unfold buildFilter, regexOf, noFilter. by rewrite Hn, Hb, Hc, Hmin, Hmax.
Qed.

Lemma find_all (c : list Doc) :
  Mongo.find noFilter None None c = Some (Done c).
Proof. unfold Mongo.find, noFilter, Mongo.page_of. simpl. by rewrite filter_all. Qed.

Lemma filterProducts_of_find (q : SearchQuery) (c products : list Doc) :
  Mongo.find (buildFilter q) None None c = Some (Done products) →
  filterProducts q c =
    Some (match products with
          | [] => json 404 (Message "No products found matching required criteria.")
          | _ :: _ => json 200 (Products products)
          end).
Proof.
  intros Hfind. unfold filterProducts. cbn [find Mongo.store]. rewrite Hfind.
  by destruct products.
Qed.

Lemma lower_string_empty (s t : string) :
  lower_string s = lower_string t → s = "" → t = "".
Proof. intros Hl ->. by destruct t. Qed.

Lemma contains_ci_lower (s t hay : string) :
  lower_string s = lower_string t → contains_ci s hay → contains_ci t hay.
Proof.
  intros Hl (pre & mid & post & Hhay & Hmid).
  exists pre, mid, post. split; [done |]. congruence.
Qed.

Lemma text_ok_same (a b : option string) (field : option JsValue) :
  same_text a b → text_ok a field → text_ok b field.
Proof.
  unfold same_text, text_ok. destruct a as [s |], b as [t |]; try done.
  intros Hl Hok t' [= <-] Hne.
  destruct (Hok s eq_refl) as (x & Hx & Hc).
  - intros Hs. apply Hne. by apply (lower_string_empty s t).
  - exists x. split; [done |]. by apply (contains_ci_lower s t).
Qed.

Lemma same_text_sym (a b : option string) : same_text a b → same_text b a.
Proof. unfold same_text. destruct a, b; try done. Qed.

Lemma satisfies_same (q1 q2 : SearchQuery) (d : Doc) :
  same_query q1 q2 → satisfies q1 d → satisfies q2 d.
Proof.
  intros (Hn & Hb & Hc & Hmin & Hmax) (H1 & H2 & H3 & H4 & H5).
  unfold satisfies. rewrite <- Hmin, <- Hmax.
  split_and!; try done; by eapply text_ok_same.
Qed.

End SearchEdges.

(** X8. A search in which no parameter is provided (each one absent or
    empty) filters nothing: it returns the whole catalog, in storage
    order, and the "not found" reply exactly when the catalog is empty. *)
Theorem search_without_parameters (q : SearchQuery) (c : list Doc) :
  unfiltered q = true →
  filterProducts q c =
    Some (match c with
          | [] => json 404 (Message "No products found matching required criteria.")
          | _ :: _ => json 200 (Products c)
          end).
Proof.
  intros Hq. apply filterProducts_of_find.
  rewrite (unfiltered_filter q Hq). apply find_all.
Qed.

Lemma search_without_parameters_witness :
  unfiltered no_query = true
  ∧ filterProducts no_query search_fixture =
      Some (match search_fixture with
            | [] => json 404 (Message "No products found matching required criteria.")
            | _ :: _ => json 200 (Products search_fixture)
            end).
Proof.
  split; [reflexivity |].
  apply (search_without_parameters no_query search_fixture). reflexivity.
Defined.

(** X9. For text parameters without regular-expression metacharacters
    and whatever the bounds, the search always replies, and its reply is
    one of three: the 404 message; the 500 of a failed query, which
    happens only when a provided bound parses to NaN; or 200 with a list
    that is never empty and is a sublist of the catalog, so entries of
    the catalog in storage order and nothing else. *)
Theorem search_reply_shape (q : SearchQuery) (c : list Doc) :
  Criteria.plain_param (q_name q) = true →
  Criteria.plain_param (q_brand q) = true →
  Criteria.plain_param (q_color q) = true →
  ∃ r, filterProducts q c = Some r
       ∧ (r = json 404 (Message "No products found matching required criteria.")
          ∨ ((∃ err, r = json 500 (Failure "Error fetching products." err))
             ∧ (Mongo.bound_is_NaN (boundOf (q_minPrice q)) = true
                ∨ Mongo.bound_is_NaN (boundOf (q_maxPrice q)) = true))
          ∨ (∃ products, r = json 200 (Products products)
                         ∧ products ≠ [] ∧ sublist products c)).
Proof.
  intros Hn Hb Hc.
  unfold filterProducts. cbn [find Mongo.store]. unfold Mongo.find.
  change (filter_name (buildFilter q)) with (regexOf (q_name q)).
  change (filter_brand (buildFilter q)) with (regexOf (q_brand q)).
  change (filter_color (buildFilter q)) with (regexOf (q_color q)).
  rewrite (compile_field_plain _ Hn), (compile_field_plain _ Hb),
    (compile_field_plain _ Hc).
  cbn [mbind option_bind].
  destruct (Mongo.cast_fails (filter_price (buildFilter q))) eqn:Hcast.
  - eexists. split; [done |]. right. left. split; [by eexists |].
    unfold buildFilter in Hcast. simpl in Hcast.
    destruct (JsString.truthy (q_minPrice q) || JsString.truthy (q_maxPrice q));
      [| discriminate Hcast].
    simpl in Hcast. by apply orb_true_iff in Hcast.
  - unfold Mongo.page_of.
    match goal with
    | |- context [List.filter ?f c] =>
        pose proof (sublist_List_filter f c) as Hsub;
        destruct (List.filter f c) as [| d ds]
    end.
    + eexists. split; [done |]. by left.
    + eexists. split; [done |]. right. right. by eexists.
Qed.

Lemma search_reply_shape_witness :
  Criteria.plain_param (q_name combined_query) = true
  ∧ Criteria.plain_param (q_brand combined_query) = true
  ∧ Criteria.plain_param (q_color combined_query) = true
  ∧ ∃ r, filterProducts combined_query search_fixture = Some r
         ∧ (r = json 404 (Message "No products found matching required criteria.")
            ∨ ((∃ err, r = json 500 (Failure "Error fetching products." err))
               ∧ (Mongo.bound_is_NaN (boundOf (q_minPrice combined_query)) = true
                  ∨ Mongo.bound_is_NaN (boundOf (q_maxPrice combined_query))
                    = true))
            ∨ (∃ products, r = json 200 (Products products)
                           ∧ products ≠ [] ∧ sublist products search_fixture)).
Proof.
  split; [reflexivity |]. split; [reflexivity |]. split; [reflexivity |].
  exact (search_reply_shape combined_query search_fixture
           eq_refl eq_refl eq_refl).
Defined.

(** X10. Bounds that exclude each other give "not found": when both
    minPrice and maxPrice are provided and the lower one is above the
    upper one, no entry can lie between them and the search answers 404,
    whatever the catalog and the other (well-formed) parameters. *)
Theorem crossed_bounds_find_nothing (q : SearchQuery) (c : list Doc)
    (lo hi : string) :
  Criteria.well_formed q = true →
  q_minPrice q = Some lo → lo ≠ "" →
  q_maxPrice q = Some hi → hi ≠ "" →
  JsNumber.leb (JsParse.parseFloat lo) (JsParse.parseFloat hi) = false →
  filterProducts q c
  = Some (json 404 (Message "No products found matching required criteria.")).
Proof.
  intros Hq Hlo Hlo' Hhi Hhi' Hcross.
  rewrite (filterProducts_of_find q c _ (find_well_formed q c Hq)).
  rewrite List_filter_none; [done |].
  intros d _. apply not_true_is_false.
  intros (_ & _ & _ & Hmin & Hmax)%keep_satisfies.
  destruct (Hmin lo Hlo Hlo') as (x & Hx & Hle1).
  destruct (Hmax hi Hhi Hhi') as (x' & Hx' & Hle2).
  rewrite Hx in Hx'. injection Hx' as <-.
  rewrite (leb_trans _ _ _ Hle1 Hle2) in Hcross. done.
Qed.

Lemma crossed_bounds_find_nothing_witness :
  Criteria.well_formed crossed_bounds_query = true
  ∧ q_minPrice crossed_bounds_query = Some "2000" ∧ "2000" ≠ ""
  ∧ q_maxPrice crossed_bounds_query = Some "1000" ∧ "1000" ≠ ""
  ∧ JsNumber.leb (JsParse.parseFloat "2000") (JsParse.parseFloat "1000") = false
  ∧ filterProducts crossed_bounds_query search_fixture
    = Some (json 404 (Message "No products found matching required criteria.")).
Proof.
  assert (Criteria.well_formed crossed_bounds_query = true) as H1 by reflexivity.
  assert ("2000" ≠ "") as H2 by done.
  assert ("1000" ≠ "") as H3 by done.
  assert (JsNumber.leb (JsParse.parseFloat "2000") (JsParse.parseFloat "1000")
          = false) as H4 by (by vm_compute).
  split; [exact H1 |]. split; [reflexivity |]. split; [exact H2 |].
  split; [reflexivity |]. split; [exact H3 |]. split; [exact H4 |].
  exact (crossed_bounds_find_nothing crossed_bounds_query search_fixture
           "2000" "1000" H1 eq_refl H2 eq_refl H3 H4).
Defined.

(** X11. A provided bound that is no number fails the query: when
    minPrice or maxPrice is present, not empty, and [parseFloat] of it is
    NaN, the filter cannot be cast and the search answers 500 with
    "Error fetching products.", never a list and never 404 (text
    parameters without metacharacters). *)
Theorem bound_that_is_no_number (q : SearchQuery) (c : list Doc) :
  Criteria.plain_param (q_name q) = true →
  Criteria.plain_param (q_brand q) = true →
  Criteria.plain_param (q_color q) = true →
  Mongo.bound_is_NaN (boundOf (q_minPrice q)) = true
  ∨ Mongo.bound_is_NaN (boundOf (q_maxPrice q)) = true →
  ∃ err, filterProducts q c = Some (json 500 (Failure "Error fetching products." err)).
Proof.
  intros Hn Hb Hc Hnan.
  exists "Cast to Number failed for value NaN at path price".
  unfold filterProducts. cbn [find Mongo.store]. unfold Mongo.find.
  change (filter_name (buildFilter q)) with (regexOf (q_name q)).
  change (filter_brand (buildFilter q)) with (regexOf (q_brand q)).
  change (filter_color (buildFilter q)) with (regexOf (q_color q)).
  rewrite (compile_field_plain _ Hn), (compile_field_plain _ Hb),
    (compile_field_plain _ Hc).
  cbn [mbind option_bind].
  assert (Mongo.cast_fails (filter_price (buildFilter q)) = true) as ->; [| done].
  unfold buildFilter. simpl.
  assert (JsString.truthy (q_minPrice q) || JsString.truthy (q_maxPrice q) = true)
    as ->.
  { unfold boundOf in Hnan. apply orb_true_iff.
    destruct Hnan as [Hnan | Hnan]; [left | right];
      by destruct (JsString.truthy _). }
  simpl. by apply orb_true_iff.
Qed.

Lemma bound_that_is_no_number_witness :
  Criteria.plain_param (q_name word_bound_query) = true
  ∧ Criteria.plain_param (q_brand word_bound_query) = true
  ∧ Criteria.plain_param (q_color word_bound_query) = true
  ∧ (Mongo.bound_is_NaN (boundOf (q_minPrice word_bound_query)) = true
     ∨ Mongo.bound_is_NaN (boundOf (q_maxPrice word_bound_query)) = true)
  ∧ ∃ err, filterProducts word_bound_query search_fixture
           = Some (json 500 (Failure "Error fetching products." err)).
Proof.
  assert (Mongo.bound_is_NaN (boundOf (q_minPrice word_bound_query)) = true
          ∨ Mongo.bound_is_NaN (boundOf (q_maxPrice word_bound_query)) = true)
    as Hnan by (left; reflexivity).
  split; [reflexivity |]. split; [reflexivity |]. split; [reflexivity |].
  split; [exact Hnan |].
  exact (bound_that_is_no_number word_bound_query search_fixture
           eq_refl eq_refl eq_refl Hnan).
Defined.

(** X12. Letter case does not matter to the search: two well-formed
    queries whose name, brand and color differ at most in the case of
    ASCII letters, with the same bounds, get the same reply on every
    catalog. *)
Theorem search_ignores_case (q1 q2 : SearchQuery) (c : list Doc) :
  Criteria.well_formed q1 = true → Criteria.well_formed q2 = true →
  same_query q1 q2 →
  filterProducts q1 c = filterProducts q2 c.
Proof.
  intros H1 H2 Hsame.
  rewrite (filterProducts_of_find q1 c _ (find_well_formed q1 c H1)).
  rewrite (filterProducts_of_find q2 c _ (find_well_formed q2 c H2)).
  rewrite (List_filter_ext (keep q1) (keep q2)); [done |].
  intros d. apply eq_true_iff_eq. rewrite !keep_satisfies. split.
  - by apply satisfies_same.
  - apply satisfies_same.
    destruct Hsame as (Hn & Hb & Hc & Hmin & Hmax).
    split_and!; try done; by apply same_text_sym.
Qed.

Lemma search_ignores_case_witness :
  Criteria.well_formed upper_query = true
  ∧ Criteria.well_formed lower_query = true
  ∧ same_query upper_query lower_query
  ∧ filterProducts upper_query search_fixture
    = filterProducts lower_query search_fixture.
Proof.
  assert (same_query upper_query lower_query) as Hsame by (by vm_compute).
  split; [reflexivity |]. split; [reflexivity |]. split; [exact Hsame |].
  exact (search_ignores_case upper_query lower_query search_fixture
           eq_refl eq_refl Hsame).
Defined.

(** ** What an upload leaves in the catalog *)

Section StoreInvariants.
Import Upsert.

Lemma ensure_all_grows (kops : list (string * Doc)) (c : list Doc) :
  ∃ news, ensure_all kops c = c ++ news
          ∧ (length news ≤ length kops)%nat
          ∧ Forall (λ d, ∃ ko, ko ∈ kops ∧ d = base ko.1) news.
Proof.
  revert c. induction kops as [| ko kops IH]; intros c.
  - exists []. by rewrite app_nil_r.
  - change (ensure_all (ko :: kops) c) with (ensure_all kops (ensure ko.1 c)).
    unfold ensure. destruct (present ko.1 c).
    + destruct (IH c) as (news & -> & Hlen & Hnews). exists news.
      split_and!; [done | simpl; lia |].
      eapply Forall_impl; [exact Hnews |].
      intros d (ko' & Hko' & ->). exists ko'. split; [| done].
      apply elem_of_cons. by right.
    + destruct (IH (c ++ [base ko.1])) as (news & -> & Hlen & Hnews).
      exists (base ko.1 :: news). rewrite <- app_assoc.
      split_and!; [done | simpl; lia |].
      apply Forall_cons. split.
      * exists ko. split; [| done]. apply elem_of_cons. by left.
      * eapply Forall_impl; [exact Hnews |].
        intros d (ko' & Hko' & ->). exists ko'. split; [| done].
        apply elem_of_cons. by right.
Qed.

Lemma layers_untouched (kops : list (string * Doc)) (d : Doc) :
  (∀ ko, ko ∈ kops → Mongo.has_sku ko.1 d = false) → layers kops d = d.
Proof.
  induction kops as [| ko kops IH]; intros Hall; [done |].
  change (layers (ko :: kops) d) with (layers kops (layer ko.1 ko.2 d)).
  unfold layer. rewrite (Hall ko) by (apply elem_of_cons; by left).
  apply IH. intros ko' Hko'. apply Hall, elem_of_cons. by right.
Qed.

Lemma kop_key_written (rs : list RawRow) (ko : string * Doc) (d : Doc) :
  ko ∈ kops_of rs → Mongo.has_sku ko.1 d = true → written_by rs d.
Proof.
  rewrite kops_of_products. intros (p & -> & Hp)%list_elem_of_fmap Hhas.
  pose proof Hp as (r & _ & Hv)%elem_of_accepted.
  destruct (accepted_has_sku r p Hv) as (k0 & Hk0).
  exists p, (JsString.trim k0). split; [done |].
  split; [unfold product_key; by rewrite Hk0 |].
  unfold Mongo.has_sku, Mongo.sku_key in Hhas. apply bool_decide_eq_true in Hhas.
  unfold kop_of_product in Hhas. simpl in Hhas. by rewrite Hk0 in Hhas.
Qed.

Lemma written_kop (rs : list RawRow) (d : Doc) :
  written_by rs d → ∃ ko, ko ∈ kops_of rs ∧ Mongo.has_sku ko.1 d = true.
Proof.
  intros (p & k & Hp & Hk & Hsku). exists (kop_of_product p). split.
  - rewrite kops_of_products. apply list_elem_of_fmap. by exists p.
  - rewrite (product_key_kop p k Hk). by apply bool_decide_eq_true.
Qed.

Lemma kops_length (rs : list RawRow) :
  length (kops_of rs) = length (accepted rs).
Proof. by rewrite kops_of_products, length_fmap. Qed.

Lemma accepted_numbers (r : RawRow) (p : ValidProduct) :
  validateRow r = Accepted p →
  JsNumber.leb (vp_price p) (vp_mrp p) = true
  ∧ JsNumber.leb (JsNumber.of_int (Some 0%Z)) (JsNumber.of_int (vp_quantity p))
    = true.
Proof.
  intros [-> Hff]%validateRow_accepted_iff.
  apply first_failure_none in Hff as (_ & Hbad & Hgt & Hneg).
  unfold Rules.bad_number in Hbad. rewrite !orb_false_iff in Hbad.
  destruct Hbad as ((Hm & Hp) & Hq).
  unfold Rules.product_of. cbn [vp_price vp_mrp vp_quantity]. split.
  - unfold Rules.price_above_mrp in Hgt.
    rewrite (gtb_negb_leb _ _ Hm Hp) in Hgt. by apply negb_false_iff in Hgt.
  - unfold Rules.negative_quantity in Hneg.
    destruct (parseQuantity (r !! "quantity")) as [q |]; [| done].
    rewrite leb_zero_of_int. simpl in Hneg. by rewrite Hneg.
Qed.

Lemma complete_checked (d : Doc) : Schema.complete d → Schema.checked d.
Proof.
  intros (m & p & q & Hm & Hp & Hq & Hle & Hq0).
  unfold Schema.checked, Schema.price_validator, Schema.min_zero.
  by rewrite Hm, Hp, Hq.
Qed.

Lemma complete_union (set d : Doc) :
  Schema.complete set → Schema.complete (set ∪ d).
Proof.
  intros (m & p & q & Hm & Hp & Hq & Hle & Hq0). exists m, p, q.
  split_and!; try done; by apply lookup_union_Some_l.
Qed.

Lemma kops_complete (rs : list RawRow) :
  Forall (λ ko, Schema.complete ko.2) (kops_of rs).
Proof.
  rewrite kops_of_products. apply Forall_fmap, Forall_forall.
  intros p (r & _ & Hv)%elem_of_accepted.
  destruct (accepted_numbers r p Hv) as [Hle Hq0].
  destruct (castUpdate_numbers p) as (Hm & Hp & Hq).
  simpl. by eexists _, _, _.
Qed.

Lemma layers_complete (kops : list (string * Doc)) (d : Doc) :
  Forall consistent kops → Forall (λ ko, Schema.complete ko.2) kops →
  (∃ ko, ko ∈ kops ∧ Mongo.has_sku ko.1 d = true) →
  Schema.complete (layers kops d).
Proof.
  induction kops as [| ko kops IH] using rev_ind.
  - intros _ _ (ko & Hko & _). by apply elem_of_nil in Hko.
  - intros [Hcons Hko]%Forall_app [Hall Hgood]%Forall_app (ko' & Hin & Hhas).
    apply Forall_inv in Hko, Hgood.
    rewrite layers_snoc. unfold layer.
    rewrite (has_sku_key ko.1 _ d) by apply (layers_merged kops d Hcons).
    destruct (Mongo.has_sku ko.1 d) eqn:Hk; [by apply complete_union |].
    apply IH; [done | done |]. exists ko'. split; [| done].
    apply elem_of_app in Hin as [Hin | ->%list_elem_of_singleton]; [done |].
    congruence.
Qed.

Lemma run_members (kops : list (string * Doc)) (c : list Doc) (d' : Doc) :
  Forall consistent kops → d' ∈ run kops c →
  ∃ d, d' = layers kops d ∧ Mongo.sku_key d' = Mongo.sku_key d
       ∧ (d ∈ c ∨ ∃ ko, ko ∈ kops ∧ d = base ko.1).
Proof.
  intros Hcons. rewrite (run_layers kops c Hcons).
  intros (d & -> & Hd)%list_elem_of_fmap. exists d.
  split; [done |]. split; [apply (layers_merged kops d Hcons) |].
  destruct (ensure_all_grows kops c) as (news & Heq & _ & Hnews).
  rewrite Heq in Hd. apply elem_of_app in Hd as [Hd | Hd]; [by left | right].
  by apply (proj1 (Forall_forall _ _) Hnews).
Qed.

End StoreInvariants.

(** X13. An upload of a file whose header names the expected columns
    only adds and overwrites. Every entry of the catalog stays at its
    position and keeps its sku; an entry under a sku that no accepted row
    of the file carries is left exactly as it was; and the catalog grows
    by at most the number of accepted rows. *)
Theorem upload_keeps_other_entries (rs : list RawRow) (c : list Doc) :
  expected_format rs = true →
  unique_skus c →
  let after := store_after (uploadProducts (Some {| rows := rs; ending := End |}) c) in
  (length c ≤ length after ≤ length c + length (accepted rs))%nat
  ∧ ∀ i d, c !! i = Some d →
      ∃ d', after !! i = Some d'
            ∧ d' !! "sku" = d !! "sku"
            ∧ (¬ written_by rs d → d' = d).
Proof.
  intros Hrs Hc after. destruct (upload_on_store rs c Hrs Hc) as [_ Hstore].
  subst after. rewrite Hstore.
  pose proof (kops_consistent rs) as Hcons.
  rewrite (run_layers _ c Hcons).
  destruct (ensure_all_grows (kops_of rs) c) as (news & -> & Hlen & _).
  rewrite kops_length in Hlen. split.
  - rewrite length_fmap, length_app. lia.
  - intros i d Hi. exists (Upsert.layers (kops_of rs) d). split_and!.
    + by rewrite list_lookup_fmap, lookup_app_l, Hi
        by (by eapply lookup_lt_Some).
    + apply (layers_merged (kops_of rs) d Hcons).
    + intros Hnot. apply layers_untouched. intros ko Hko.
      apply not_true_is_false. intros Hhas. apply Hnot.
      by apply (kop_key_written rs ko d).
Qed.

Lemma upload_keeps_other_entries_witness :
  expected_format valid_file = true
  ∧ unique_skus search_fixture
  ∧ let after := store_after (uploadProducts
                                (Some {| rows := valid_file; ending := End |})
                                search_fixture) in
    (length search_fixture ≤ length after
     ≤ length search_fixture + length (accepted valid_file))%nat
    ∧ ∀ i d, search_fixture !! i = Some d →
        ∃ d', after !! i = Some d'
              ∧ d' !! "sku" = d !! "sku"
              ∧ (¬ written_by valid_file d → d' = d).
Proof.
  assert (unique_skus search_fixture) as Hc
    by (apply (bool_decide_unpack _); vm_compute; exact I).
  assert (expected_format valid_file = true) as Hrs
    by (vm_compute; reflexivity).
  split; [exact Hrs |]. split; [exact Hc |].
  exact (upload_keeps_other_entries valid_file search_fixture Hrs Hc).
Defined.

(** X14. What an upload of a file whose header names the expected
    columns writes passes the schema's price validator and the lower
    bound of the quantity, although [bulkWrite] runs neither: every
    entry under a sku of an accepted row has numbers for mrp, price and
    quantity, with the price not above the mrp and the quantity not
    negative. So a catalog whose entries pass the two validators still
    does after such an upload. *)
Theorem upload_keeps_schema_checks (rs : list RawRow) (c : list Doc) :
  expected_format rs = true →
  unique_skus c →
  let after := store_after (uploadProducts (Some {| rows := rs; ending := End |}) c) in
  (∀ d, d ∈ after → written_by rs d → Schema.complete d ∧ Schema.checked d)
  ∧ (Forall Schema.checked c → Forall Schema.checked after).
Proof.
  intros Hrs Hc after. destruct (upload_on_store rs c Hrs Hc) as [_ Hstore].
  subst after. rewrite Hstore.
  pose proof (kops_consistent rs) as Hcons.
  pose proof (kops_complete rs) as Hgood.
  assert (∀ d, d ∈ Upsert.run (kops_of rs) c → written_by rs d →
               Schema.complete d) as Hwritten.
  { intros d' Hd' Hw.
    destruct (run_members _ c d' Hcons Hd') as (d & -> & Hkey & _).
    apply layers_complete; [done | done |].
    destruct (written_kop rs _ Hw) as (ko & Hko & Hhas).
    exists ko. split; [done |].
    by rewrite (has_sku_key ko.1 d (Upsert.layers (kops_of rs) d)). }
  split.
  - intros d Hd Hw. split; [| apply complete_checked]; by apply Hwritten.
  - intros Hall. apply Forall_forall. intros d' Hd'.
    destruct (decide (Exists (λ ko, Mongo.has_sku ko.1 d' = true) (kops_of rs)))
      as [(ko & Hko & Hhas)%Exists_exists | Hnone].
    + apply complete_checked, Hwritten; [done |].
      by apply (kop_key_written rs ko d').
    + destruct (run_members _ c d' Hcons Hd') as (d & Heq & Hkey & Hd).
      assert (∀ ko, ko ∈ kops_of rs → Mongo.has_sku ko.1 d = false) as Hfree.
      { intros ko Hko. apply not_true_is_false. intros Hhas. apply Hnone.
        apply Exists_exists. exists ko. split; [done |].
        by rewrite (has_sku_key ko.1 d' d). }
      rewrite (layers_untouched _ d Hfree) in Heq. subst d'.
      destruct Hd as [Hd | (ko & Hko & ->)].
      * by apply (proj1 (Forall_forall _ _) Hall).
      * exfalso.
        pose proof (Hfree ko Hko) as Hk. rewrite has_sku_base in Hk.
        by rewrite bool_decide_eq_false in Hk.
Qed.

Lemma upload_keeps_schema_checks_witness :
  expected_format valid_file = true
  ∧ unique_skus search_fixture
  ∧ let after := store_after (uploadProducts
                                (Some {| rows := valid_file; ending := End |})
                                search_fixture) in
    (∀ d, d ∈ after → written_by valid_file d →
          Schema.complete d ∧ Schema.checked d)
    ∧ (Forall Schema.checked search_fixture → Forall Schema.checked after).
Proof.
  assert (unique_skus search_fixture) as Hc
    by (apply (bool_decide_unpack _); vm_compute; exact I).
  assert (expected_format valid_file = true) as Hrs
    by (vm_compute; reflexivity).
  split; [exact Hrs |]. split; [exact Hc |].
  exact (upload_keeps_schema_checks valid_file search_fixture Hrs Hc).
Defined.

(** The schema's [min: 0] on mrp and price is not secured the same way:
    a row with a negative mrp and a lower price is accepted and stored. *)
Example negative_price_is_stored :
  (λ d, (d !! "sku", d !! "mrp", d !! "price"))
    <$> store_after (uploadProducts
                       (Some {| rows := [negative_price_row]; ending := End |})
                       ([] : list Doc))
  = [ (Some (VStr "REFUND-001"),
       Some (VNum (JsNumber.Fin (-10 # 1))),
       Some (VNum (JsNumber.Fin (-20 # 1)))) ].
Proof. by vm_compute. Qed.

(** X15. What an upload stores, the search finds. For a file whose
    header names the expected columns and the last accepted row of it
    under its sku, with a brand cell that has no metacharacter once
    trimmed, the search for that trimmed brand on the catalog after the
    upload answers 200 with a list that holds the entry of that sku,
    carrying the price and the mrp of that row. *)
Theorem uploaded_row_is_found (rs : list RawRow) (c : list Doc)
    (before after : list ValidProduct) (last : ValidProduct) (k b : string) :
  expected_format rs = true →
  unique_skus c →
  accepted rs = before ++ last :: after →
  product_key last = Some k →
  (∀ p, p ∈ after → product_key p ≠ Some k) →
  vp_row last !! "brand" = Some b →
  Criteria.plain (JsString.trim b) = true →
  ∃ products d,
    filterProducts (brand_query (JsString.trim b))
      (store_after (uploadProducts (Some {| rows := rs; ending := End |}) c))
    = Some (json 200 (Products products))
    ∧ d ∈ products
    ∧ d !! "sku" = Some (VStr k)
    ∧ d !! "brand" = Some (VStr (JsString.trim b))
    ∧ d !! "price" = Some (VNum (vp_price last))
    ∧ d !! "mrp" = Some (VNum (vp_mrp last)).
Proof.
  intros Hrs Hc Hacc Hlast Hafter Hb Hplain.
  destruct (upload_on_store rs c Hrs Hc) as [_ Hstore]. rewrite Hstore.
  destruct (last_row_wins rs c before after last k Hc Hacc Hlast Hafter)
    as (i & d & Hi & Hsku & _ & Hsub).
  destruct (castUpdate_numbers last) as (Hmrp & Hprice & _).
  assert (d !! "brand" = Some (VStr (JsString.trim b))) as Hbrand.
  { apply (lookup_weaken (Mongo.castUpdate last)); [| done].
    rewrite castUpdate_string_path by done. by rewrite Hb. }
  set (q := brand_query (JsString.trim b)).
  assert (Criteria.well_formed q = true) as Hq
    by (unfold Criteria.well_formed; simpl; by rewrite Hplain).
  rewrite (filterProducts_of_find q _ _ (find_well_formed q _ Hq)).
  assert (d ∈ List.filter (keep q) (Upsert.run (kops_of rs) c)) as Hd.
  { apply list_elem_of_In, filter_In. split.
    - apply list_elem_of_In. by eapply list_elem_of_lookup_2.
    - apply keep_satisfies. unfold Criteria.satisfies. simpl. split_and!.
      + by intros s [=].
      + intros s [= <-] _. exists (JsString.trim b). split; [done |].
        exists "", (JsString.trim b), "". split; [| done].
        rewrite append_nil. clear. induction (JsString.trim b) as [| a r IH];
          [done |]. rewrite append_cons. by f_equal.
      + by intros s [=].
      + by intros s [=].
      + by intros s [=]. }
  destruct (List.filter (keep q) (Upsert.run (kops_of rs) c)) as [| d0 ds] eqn:Hf.
  { by apply elem_of_nil in Hd. }
  exists (d0 :: ds), d. split_and!; try done.
  - by apply (lookup_weaken _ _ _ _ Hprice).
  - by apply (lookup_weaken _ _ _ _ Hmrp).
Qed.

Lemma uploaded_row_is_found_witness :
  expected_format repeated_sku_file = true
  ∧ unique_skus search_fixture
  ∧ accepted repeated_sku_file = repeated_before ++ repeated_last :: []
  ∧ product_key repeated_last = Some "TSHIRT-RED-M-001"
  ∧ (∀ p, p ∈ ([] : list ValidProduct) → product_key p ≠ Some "TSHIRT-RED-M-001")
  ∧ vp_row repeated_last !! "brand" = Some "CoolBrand"
  ∧ Criteria.plain (JsString.trim "CoolBrand") = true
  ∧ ∃ products d,
      filterProducts (brand_query (JsString.trim "CoolBrand"))
        (store_after (uploadProducts
                        (Some {| rows := repeated_sku_file; ending := End |})
                        search_fixture))
      = Some (json 200 (Products products))
      ∧ d ∈ products
      ∧ d !! "sku" = Some (VStr "TSHIRT-RED-M-001")
      ∧ d !! "brand" = Some (VStr (JsString.trim "CoolBrand"))
      ∧ d !! "price" = Some (VNum (vp_price repeated_last))
      ∧ d !! "mrp" = Some (VNum (vp_mrp repeated_last)).
Proof.
  assert (∀ p, p ∈ ([] : list ValidProduct) →
               product_key p ≠ Some "TSHIRT-RED-M-001") as H4
    by (intros p Hp; exact (False_ind _ (proj1 (elem_of_nil p) Hp))).
  assert (unique_skus search_fixture) as H1
    by (apply (bool_decide_unpack _); vm_compute; exact I).
  assert (accepted repeated_sku_file = repeated_before ++ repeated_last :: [])
    as H2 by (vm_compute; reflexivity).
  assert (product_key repeated_last = Some "TSHIRT-RED-M-001")
    as H3 by (vm_compute; reflexivity).
  assert (vp_row repeated_last !! "brand" = Some "CoolBrand") as H5
    by (vm_compute; reflexivity).
  assert (Criteria.plain (JsString.trim "CoolBrand") = true) as H6
    by (vm_compute; reflexivity).
  assert (expected_format repeated_sku_file = true) as H0
    by (vm_compute; reflexivity).
  split; [exact H0 |]. split; [exact H1 |]. split; [exact H2 |].
  split; [exact H3 |]. split; [exact H4 |]. split; [exact H5 |].
  split; [exact H6 |].
  exact (uploaded_row_is_found repeated_sku_file search_fixture repeated_before []
           repeated_last "TSHIRT-RED-M-001" "CoolBrand" H0 H1 H2 H3 H4 H5 H6).
Defined.

(** ** Rejected rows and the store *)

Section RejectedRows.
Context {DB : Type} `{CatalogStore DB}.

Lemma accepted_accepted_rows (rs : list RawRow) :
  accepted (accepted_rows rs) = accepted rs.
Proof.
  induction rs as [| r rs IH]; [done |].
  unfold accepted_rows. cbn [List.filter]. fold (accepted_rows rs).
  destruct (is_rejected r) eqn:Hr; cbn [negb].
  - rewrite IH. unfold is_rejected in Hr. unfold accepted at 2. simpl.
    by destruct (validateRow r).
  - change (r :: accepted_rows rs) with ([r] ++ accepted_rows rs).
    change (r :: rs) with ([r] ++ rs). by rewrite !accepted_app, IH.
Qed.

Lemma rejected_accepted_rows (rs : list RawRow) :
  rejected (accepted_rows rs) = [].
Proof.
  induction rs as [| r rs IH]; [done |].
  unfold accepted_rows. cbn [List.filter]. fold (accepted_rows rs).
  destruct (is_rejected r) eqn:Hr; cbn [negb]; [done |].
  unfold rejected in *. cbn [List.filter]. by rewrite Hr.
Qed.

(** X16. Rejected rows leave no trace in the store: a file and the same
    file without its rejected rows send the same batch, leave the same
    store and get the same status; the replies differ at most in the
    failed count and the rejection records, which are 0 and none for the
    file without them. *)
Theorem rejected_rows_leave_no_trace (rs : list RawRow) (db : DB) :
  let whole := uploadProducts (Some {| rows := rs; ending := End |}) db in
  let clean :=
    uploadProducts (Some {| rows := accepted_rows rs; ending := End |}) db in
  batches whole = batches clean
  ∧ store_after whole = store_after clean
  ∧ status (reply whole) = status (reply clean)
  ∧ (∀ message stored failed details,
       body (reply whole) = Summary message stored failed details →
       body (reply clean) = Summary message stored 0 []).
Proof.
  simpl. fold (run rs). fold (run (accepted_rows rs)). rewrite !onEnd_run.
  rewrite accepted_accepted_rows.
  assert (summary_of (accepted_rows rs)
          = json 201 (Summary "CSV data processed successfully."
                        (length (accepted rs)) 0 [])) as Hclean.
  { unfold summary_of.
    rewrite <- (rejections_length 0 (accepted_rows rs)) at 1.
    rewrite accepted_accepted_rows.
    assert (rejections 0 (accepted_rows rs) = []) as ->; [| done].
    apply length_zero_iff_nil.
    by rewrite rejections_length, rejected_accepted_rows. }
  rewrite Hclean. clear Hclean. unfold summary_of.
  destruct (accepted rs) as [| p ps].
  - unfold batches, store_after, reply. simpl. split_and!; try done.
    by intros message stored failed details [= <- <- _ _].
  - remember (operations_of (p :: ps)) as ops eqn:Hops.
    remember (length (p :: ps)) as n eqn:Hn. cbv beta iota zeta.
    destruct (bulkWrite ops db) as [db' [err |]];
      unfold batches, store_after, reply; simpl;
      split_and!; try done.
    by intros message stored failed details [= <- <- _ _].
Qed.

End RejectedRows.
